(** * Punch-list tracker: unit repository and task mutations

    A shallow embedding of the event handlers of [src/App.js]: the handlers
    of the home page ([addUnitToFirestore], [handleGenerateMultipleUnits])
    and of the unit view ([handleTaskToggle], [handleAddTask],
    [handleSuggestTasks]), run against a model of the document store they
    write to and of the message box they report to.

    Every handler is an [async] function: it reads the React state it closes
    over, awaits calls to the store, shows messages and may throw.  It is
    embedded as a computation in a state-and-exception monad over [State]. *)

From Stdlib Require Import ZArith String Ascii List Bool Lia.
From stdpp Require Import base gmap strings list pretty.

Set Warnings "-register-all".

(** ** JavaScript values

    Values that [response.json()] and [JSON.parse] can produce, plus
    [undefined], which reading a missing property gives.  Numbers are the
    integer-valued ones. *)

Inductive jsval : Type :=
| VUndefined
| VNull
| VBool (b : bool)
| VNum (n : Z)
| VStr (s : string)
| VArr (items : list jsval)
| VObj (fields : list (string * jsval)).

(** [a === b].  Arrays and objects compare by reference: a value that was
    just parsed is never the object held by a stored task, so the comparison
    is [false] on them. *)
Definition strict_eq (a b : jsval) : bool :=
  match a, b with
  | VUndefined, VUndefined => true
  | VNull, VNull => true
  | VBool x, VBool y => Bool.eqb x y
  | VNum x, VNum y => Z.eqb x y
  | VStr x, VStr y => String.eqb x y
  | _, _ => false
  end.

(** Truthiness, as tested by [&&] and [if]. *)
Definition truthy (v : jsval) : bool :=
  match v with
  | VUndefined | VNull => false
  | VBool b => b
  | VNum n => negb (Z.eqb n 0)
  | VStr s => negb (String.eqb s EmptyString)
  | VArr _ | VObj _ => true
  end.

(** ** Domain data: tasks, trades, unit documents *)

(** A task object [{ task, completed }].  The [task] field holds whatever
    value the code stored there: a string for the canned and the prompted
    tasks, and any element of the suggested array for suggested ones. *)
Record Task : Type := mkTask { task : jsval; completed : bool }.

(** A unit document [{ address, status, trades }]; [trades] maps a trade name
    to its task array.  Property lookup on [trades] is own-property lookup:
    trade names are taken not to be members of [Object.prototype]. *)
Record UnitDoc : Type := mkUnit {
  address : string;
  status : string;
  trades : gmap string (list Task)
}.

Definition with_trades (newTrades : gmap string (list Task)) (u : UnitDoc) : UnitDoc :=
  {| address := address u; status := status u; trades := newTrades |}.

(** ** Messages, exceptions, store requests *)

Inductive msgtype : Type := Info | Err.

Record Message : Type := mkMessage { text : string; type : msgtype }.

Inductive exn : Type :=
| TypeError (msg : string)
| SyntaxError (msg : string)
| FirebaseError (msg : string)
| FetchError (msg : string).

(** A string between double quotes, as the templates `... "${x}" ...` print it. *)
Definition quoted (s : string) : string :=
  String (ascii_of_nat 34) (s +:+ String (ascii_of_nat 34) EmptyString).

(** [error.message] *)
Definition message (e : exn) : string :=
  match e with
  | TypeError m | SyntaxError m | FirebaseError m | FetchError m => m
  end.

(** The write requests a handler sends to the store. *)
Inductive Request : Type :=
| SetDoc (key : string) (data : UnitDoc)
| UpdateDoc (key : string) (newTrades : gmap string (list Task)).

(** ** State

    The React state the handlers close over, the document store, and the
    message box.

    - [db], [userId]: the [App] state ([db] is [true] once the Firestore
      handle is set);
    - [unitId], [unitData], [selectedTrade], [isGeneratingTasks]: the props
      and state of [UnitView].  [unitId] is the reference of the viewed
      document: the prop as [doc(db, units, unitId)] resolves it, which the
      effect of the view does when it subscribes, before a handler can run.
      [unitData] is the object the last snapshot delivered; [handleTaskToggle] mutates a task object that [unitData]
      shares with the copy it writes, so the handlers thread [unitData]
      through as state rather than read a fresh value;
    - [docs]: the documents under [/artifacts/<appId>/public/data/units],
      keyed by their reference relative to that collection: the document id
      for a unit of the collection;
    - [faults]: what the store answers to the coming write requests, in
      order: [None] accepts the write, [Some m] rejects it with an error
      whose message is [m]; once the list is used up every write is accepted;
    - [requests]: the log of write requests sent so far, oldest first;
    - [messages]: the log of [showMessage] calls, oldest first. *)
Record State : Type := mkState {
  db : bool;
  userId : option string;
  unitId : string;
  unitData : option UnitDoc;
  selectedTrade : string;
  isGeneratingTasks : bool;
  docs : gmap string UnitDoc;
  faults : list (option string);
  requests : list Request;
  messages : list Message
}.

Definition set_unitData (x : option UnitDoc) (s : State) : State :=
  mkState (db s) (userId s) (unitId s) x (selectedTrade s)
    (isGeneratingTasks s) (docs s) (faults s) (requests s) (messages s).

Definition set_isGeneratingTasks (x : bool) (s : State) : State :=
  mkState (db s) (userId s) (unitId s) (unitData s) (selectedTrade s)
    x (docs s) (faults s) (requests s) (messages s).

Definition set_docs (x : gmap string UnitDoc) (s : State) : State :=
  mkState (db s) (userId s) (unitId s) (unitData s) (selectedTrade s)
    (isGeneratingTasks s) x (faults s) (requests s) (messages s).

Definition set_faults (x : list (option string)) (s : State) : State :=
  mkState (db s) (userId s) (unitId s) (unitData s) (selectedTrade s)
    (isGeneratingTasks s) (docs s) x (requests s) (messages s).

Definition set_requests (x : list Request) (s : State) : State :=
  mkState (db s) (userId s) (unitId s) (unitData s) (selectedTrade s)
    (isGeneratingTasks s) (docs s) (faults s) x (messages s).

Definition set_messages (x : list Message) (s : State) : State :=
  mkState (db s) (userId s) (unitId s) (unitData s) (selectedTrade s)
    (isGeneratingTasks s) (docs s) (faults s) (requests s) x.

(** ** The monad of handlers *)

(** How an evaluation completes: with a value, or by throwing. *)
Inductive completion (A : Type) : Type :=
| Returned (a : A)
| Thrown (e : exn).
Arguments Returned {A} a.
Arguments Thrown {A} e.

Definition M (A : Type) : Type := State → completion A * State.

#[global] Instance M_ret : MRet M := λ A a s, (Returned a, s).

#[global] Instance M_bind : MBind M := λ A B f m s,
  match m s with
  | (Returned a, s') => f a s'
  | (Thrown e, s') => (Thrown e, s')
  end.

Definition throw {A} (e : exn) : M A := λ s, (Thrown e, s).

(** Expressions that read no state evaluate in [completion]; [lift] runs one
    inside a handler. *)
#[global] Instance completion_ret : MRet completion := λ A a, Returned a.

#[global] Instance completion_bind : MBind completion := λ A B f r,
  match r with
  | Returned a => f a
  | Thrown e => Thrown e
  end.

Definition lift {A} (r : completion A) : M A := λ s, (r, s).

(** [try { body } catch (error) { handler }] *)
Definition try_catch {A} (body : M A) (handler : exn → M A) : M A := λ s,
  match body s with
  | (Returned a, s') => (Returned a, s')
  | (Thrown e, s') => handler e s'
  end.

(** [try { body } finally { cleanup }] *)
Definition try_finally {A} (body : M A) (cleanup : M unit) : M A := λ s,
  match body s with
  | (r, s') =>
      match cleanup s' with
      | (Returned _, s'') => (r, s'')
      | (Thrown e, s'') => (Thrown e, s'')
      end
  end.

Definition get_state : M State := λ s, (Returned s, s).
Definition modify (f : State → State) : M unit := λ s, (Returned tt, f s).

(** ** The message box and the document store *)

(** [showMessage(message, type = 'info')]: the [message-box] element is
    always rendered by [App], so the message is shown. *)
Definition showMessage (message : string) (type : msgtype) : M unit :=
  modify (λ s, set_messages (messages s ++ [mkMessage message type]) s).

(** The store's answer to the next write request. *)
Definition store_answer : M unit := λ s,
  match faults s with
  | [] => (Returned tt, s)
  | None :: rest => (Returned tt, set_faults rest s)
  | Some m :: rest => (Thrown (FirebaseError m), set_faults rest s)
  end.

Definition send (r : Request) : M unit :=
  modify (λ s, set_requests (requests s ++ [r]) s).

(** [path.split('/')] *)
Fixpoint split_path (path : string) : list string :=
  match path with
  | EmptyString => [EmptyString]
  | String c rest =>
      if Ascii.eqb c "/" then EmptyString :: split_path rest
      else
        match split_path rest with
        | segment :: segments => String c segment :: segments
        | [] => [String c EmptyString]
        end
  end.

(** [path.indexOf('//') >= 0] *)
Fixpoint has_double_slash (path : string) : bool :=
  match path with
  | String a (String b _ as rest) =>
      (Ascii.eqb a "/" && Ascii.eqb b "/") || has_double_slash rest
  | _ => false
  end.

(** [doc(db, `/artifacts/${appId}/public/data/units`, name)], of the
    Firestore SDK, whose code is not part of the repository.  The SDK
    rejects a component that contains [//], splits each component at [/]
    and drops the empty segments, and rejects a path with an odd number of
    segments.  The collection path has five ([appId] is one segment), so
    [name] must give an odd number of segments.  The reference returned is
    written relative to the collection: the document id when [name] gives
    one segment.  The messages stand for the SDK's. *)
Definition doc (name : string) : completion string :=
  if has_double_slash name then
    Thrown (FirebaseError ("Invalid segment (" +:+ name
                           +:+ "). Paths must not contain // in them."))
  else
    let segments :=
      List.filter (λ segment, negb (String.eqb segment EmptyString)) (split_path name) in
    if Nat.odd (length segments) then Returned (String.concat "/" segments)
    else
      Thrown (FirebaseError
                "Invalid document reference. Document references must have an even number of segments.").

(** [await setDoc(unitRef, data)]: creates the document or overwrites the
    one that is there. *)
Definition setDoc (unitRef : string) (data : UnitDoc) : M unit :=
  send (SetDoc unitRef data);;
  store_answer;;
  modify (λ s, set_docs (<[unitRef := data]> (docs s)) s).

(** [await updateDoc(unitDocRef, { trades: newTrades })]: replaces the
    [trades] field of an existing document; fails when there is no document
    to update. *)
Definition updateDoc (key : string) (newTrades : gmap string (list Task)) : M unit :=
  send (UpdateDoc key newTrades);;
  store_answer;;
  s ← get_state;
  match docs s !! key with
  | Some u => modify (set_docs (<[key := with_trades newTrades u]> (docs s)))
  | None => throw (FirebaseError ("No document to update: " +:+ key))
  end.

(** The value the document subscription of [UnitView] delivers for the
    document with reference [name]: the document's data when
    [docSnap.exists()], and not found otherwise. *)
Definition getUnit (s : State) (name : string) : option UnitDoc := docs s !! name.

(** ** Home page *)

Definition task_of (description : string) : Task := mkTask (VStr description) false.

(** The [defaultTrades] object of [HomePage]. *)
Definition defaultTrades : gmap string (list Task) :=
  list_to_map [
    ("Electrical", [task_of "Rough-in wiring"; task_of "Fixture installation"]);
    ("Plumbing", [task_of "Rough-in pipes"; task_of "Fixture hookup"]);
    ("Drywall", [task_of "Hang sheets"; task_of "Tape and mud"]);
    ("Painting", [task_of "Prime walls"; task_of "Apply finish coats"]);
    ("Flooring", [task_of "Install subfloor"; task_of "Lay finish flooring"])
  ].

(** [!userId]: [null] and the empty string are falsy. *)
Definition no_user (s : State) : bool :=
  match userId s with
  | None => true
  | Some uid => String.eqb uid EmptyString
  end.

Definition addUnitToFirestore (unitName unitAddress : string) : M bool :=
  s ← get_state;
  if negb (db s) || no_user s then
    showMessage "Firebase not initialized. Please wait." Err;;
    mret false
  else
    try_catch
      (unitRef ← lift (doc unitName);
       setDoc unitRef (mkUnit unitAddress "Not Started" defaultTrades);;
       showMessage ("Unit " +:+ quoted unitName +:+ " added successfully!") Info;;
       mret true)
      (λ error,
        showMessage ("Error adding unit: " +:+ message error) Err;;
        mret false).

Definition buildingPrefixes : list string :=
  ["BuildingA"; "BuildingB"; "BuildingC"; "BuildingD"].

(** [i < 10 ? `0${i}` : `${i}`] *)
Definition unitNumber (i : nat) : string :=
  if i <? 10 then "0" +:+ pretty i else pretty i.

Definition unitName_of (building : string) (i : nat) : string :=
  building +:+ "-Unit" +:+ unitNumber i.

Definition unitAddress_of (building : string) (i : nat) : string :=
  building +:+ " Address, Unit " +:+ unitNumber i.

(** How a loop body ends: it goes on to the next iteration with the running
    count, or the handler has returned. *)
Inductive flow : Type :=
| Next (unitsAddedCount : nat)
| Return.

(** One iteration of the inner loop of [handleGenerateMultipleUnits]. *)
Definition generate_unit (building : string) (i : nat) (unitsAddedCount : nat) : M flow :=
  let name := unitName_of building i in
  success ← addUnitToFirestore name (unitAddress_of building i);
  if success : bool then mret (Next (S unitsAddedCount))
  else
    showMessage ("Failed to add unit " +:+ name +:+ ". Stopping batch generation.") Err;;
    mret Return.

(** [for (let i = 1; i <= 20; i++) { ... }], over the values [i] takes. *)
Fixpoint for_units (building : string) (indices : list nat) (unitsAddedCount : nat) : M flow :=
  match indices with
  | [] => mret (Next unitsAddedCount)
  | i :: rest =>
      f ← generate_unit building i unitsAddedCount;
      match f with
      | Next n => for_units building rest n
      | Return => mret Return
      end
  end.

(** [for (const building of buildingPrefixes) { ... }] *)
Fixpoint for_buildings (buildings : list string) (unitsAddedCount : nat) : M flow :=
  match buildings with
  | [] => mret (Next unitsAddedCount)
  | building :: rest =>
      f ← for_units building (seq 1 20) unitsAddedCount;
      match f with
      | Next n => for_buildings rest n
      | Return => mret Return
      end
  end.

(** [confirmGenerate] is the answer of [window.confirm]. *)
Definition handleGenerateMultipleUnits (confirmGenerate : bool) : M unit :=
  s ← get_state;
  if negb (db s) || no_user s then
    showMessage "Firebase not initialized. Please wait." Err
  else if negb confirmGenerate then mret tt
  else
    showMessage "Generating units, please wait..." Info;;
    f ← for_buildings buildingPrefixes 0;
    match f with
    | Next unitsAddedCount =>
        showMessage ("Successfully added " +:+ pretty unitsAddedCount +:+ " units!") Info
    | Return => mret tt
    end.

(** ** Unit view: toggling and adding tasks *)

(** [[...tasks]] of a property that may be missing: spreading [undefined]
    throws. *)
Definition spread (tasks : option (list Task)) : M (list Task) :=
  match tasks with
  | Some l => mret l
  | None => throw (TypeError "undefined is not iterable")
  end.

(** [tasks[taskIndex].completed], read: out of range the element is
    [undefined] and reading its property throws. *)
Definition task_at (tasks : list Task) (taskIndex : nat) : M Task :=
  match tasks !! taskIndex with
  | Some t => mret t
  | None => throw (TypeError "Cannot read properties of undefined (reading 'completed')")
  end.

Definition toggled (t : Task) : Task := mkTask (task t) (negb (completed t)).

(** [handleTaskToggle(tradeName, taskIndex)].  The two spreads copy the
    [trades] object and the task array, not the task objects: the assignment
    to [completed] writes the object that [unitData] holds as well, so
    [unitData] reads as [updatedTrades] from then on, whether or not the
    write to the store succeeds. *)
Definition handleTaskToggle (tradeName : string) (taskIndex : nat) : M unit :=
  s ← get_state;
  match unitData s with
  | Some u =>
      if negb (db s) then mret tt
      else
        let updatedTrades := trades u in
        tasks ← spread (updatedTrades !! tradeName);
        t ← task_at tasks taskIndex;
        let tasks := <[taskIndex := toggled t]> tasks in
        let updatedTrades := <[tradeName := tasks]> updatedTrades in
        modify (set_unitData (Some (with_trades updatedTrades u)));;
        try_catch
          (updateDoc (unitId s) updatedTrades;;
           showMessage ("Task updated for " +:+ tradeName +:+ "!") Info)
          (λ error, showMessage ("Error updating task: " +:+ message error) Err)
  | None => mret tt
  end.

(** [updatedTrades[selectedTrade] ? [...updatedTrades[selectedTrade]] : []] *)
Definition tasks_or_empty (tasks : option (list Task)) : list Task :=
  match tasks with
  | Some l => l
  | None => []
  end.

(** [handleAddTask()]; [answer] is what [window.prompt] returns: the text
    typed, or [null] when the prompt is cancelled. *)
Definition handleAddTask (answer : option string) : M unit :=
  s ← get_state;
  match unitData s with
  | Some u =>
      if negb (db s) || String.eqb (selectedTrade s) EmptyString then
        showMessage "Please select a trade first." Err
      else
        match answer with
        | Some newTaskName =>
            if String.eqb newTaskName EmptyString then mret tt
            else
              let updatedTrades := trades u in
              let tasks := tasks_or_empty (updatedTrades !! selectedTrade s) in
              let tasks := tasks ++ [mkTask (VStr newTaskName) false] in
              let updatedTrades := <[selectedTrade s := tasks]> updatedTrades in
              try_catch
                (updateDoc (unitId s) updatedTrades;;
                 showMessage ("Task " +:+ quoted newTaskName +:+ " added to "
                              +:+ selectedTrade s +:+ "!") Info)
                (λ error, showMessage ("Error adding task: " +:+ message error) Err)
        | None => mret tt
        end
  | None => showMessage "Please select a trade first." Err
  end.

(** ** Unit view: suggested tasks *)

(** What the JavaScript engine provides and the source does not define:
    [JSON.parse] of a value (it throws a [SyntaxError] on text that is not
    JSON), and the comparison [v > 0] on an operand that is not a primitive
    number, boolean, [null] or [undefined] (a string, array or object is
    converted to a number first, which can throw). *)
Class Engine : Type := {
  JSON_parse : jsval → completion jsval;
  to_number_gt_zero : jsval → completion bool
}.

(** A property name, or an array index. *)
Inductive key : Type :=
| Name (name : string)
| Index (i : nat).

Definition key_string (k : key) : string :=
  match k with
  | Name name => name
  | Index i => pretty i
  end.

Fixpoint field (name : string) (fields : list (string * jsval)) : jsval :=
  match fields with
  | [] => VUndefined
  | (name', v) :: rest => if String.eqb name name' then v else field name rest
  end.

(** [v[k]] and [v.k]: reading a property of [undefined] or [null] throws; a
    missing property reads as [undefined].  [Name] is used for names that
    are not array indices. *)
Definition get_prop (v : jsval) (k : key) : completion jsval :=
  match v with
  | VUndefined =>
      Thrown (TypeError ("Cannot read properties of undefined (reading '"
                         +:+ key_string k +:+ "')"))
  | VNull =>
      Thrown (TypeError ("Cannot read properties of null (reading '"
                         +:+ key_string k +:+ "')"))
  | VBool _ | VNum _ => Returned VUndefined
  | VStr s =>
      match k with
      | Name name =>
          Returned (if String.eqb name "length" then VNum (Z.of_nat (String.length s))
                    else VUndefined)
      | Index i =>
          Returned (match String.get i s with
                    | Some c => VStr (String c EmptyString)
                    | None => VUndefined
                    end)
      end
  | VArr items =>
      match k with
      | Name name =>
          Returned (if String.eqb name "length" then VNum (Z.of_nat (length items))
                    else VUndefined)
      | Index i =>
          Returned (match items !! i with
                    | Some x => x
                    | None => VUndefined
                    end)
      end
  | VObj fields => Returned (field (key_string k) fields)
  end.

(** [v.k1.k2...] *)
Fixpoint path (v : jsval) (ks : list key) : completion jsval :=
  match ks with
  | [] => Returned v
  | k :: rest => x ← get_prop v k; path x rest
  end.

(** [a && b] on conditions: [b] is evaluated only when [a] is truthy. *)
Definition and_then (a b : completion bool) : completion bool :=
  x ← a; if x : bool then b else Returned false.

Section suggest.
Context `{Engine}.

(** [v > 0] *)
Definition gt_zero (v : jsval) : completion bool :=
  match v with
  | VNum n => Returned (0 <? n)%Z
  | VBool b => Returned b
  | VUndefined | VNull => Returned false
  | VStr _ | VArr _ | VObj _ => to_number_gt_zero v
  end.

Definition is_truthy (r : completion jsval) : completion bool := v ← r; Returned (truthy v).
Definition is_gt_zero (r : completion jsval) : completion bool := v ← r; gt_zero v.

(** The condition on the shape of the reply:
    [result.candidates && result.candidates.length > 0 &&
     result.candidates[0].content && result.candidates[0].content.parts &&
     result.candidates[0].content.parts.length > 0]. *)
Definition shape_ok (result : jsval) : completion bool :=
  and_then (is_truthy (path result [Name "candidates"]))
  (and_then (is_gt_zero (path result [Name "candidates"; Name "length"]))
  (and_then (is_truthy (path result [Name "candidates"; Index 0; Name "content"]))
  (and_then (is_truthy (path result [Name "candidates"; Index 0; Name "content"; Name "parts"]))
            (is_gt_zero (path result [Name "candidates"; Index 0; Name "content";
                                      Name "parts"; Name "length"]))))).

(** [existingTasks.some(existing => existing.task === suggestedTask)] *)
Definition already_there (existingTasks : list Task) (suggestedTask : jsval) : bool :=
  existsb (λ existing, strict_eq (task existing) suggestedTask) existingTasks.

(** [suggestedTasks.filter(...).map(task => ({ task: task, completed: false }))] *)
Definition newTasksToAdd (existingTasks : list Task) (suggestedTasks : list jsval) : list Task :=
  map (λ task, mkTask task false)
      (List.filter (λ suggestedTask, negb (already_there existingTasks suggestedTask))
                   suggestedTasks).

(** The body of [if (Array.isArray(suggestedTasks) && suggestedTasks.length > 0)]
    in [handleSuggestTasks]: the spec's [appendSuggestedTasks]. *)
Definition appendSuggestedTasks (suggestedTasks : list jsval) : M unit :=
  s ← get_state;
  match unitData s with
  | Some u =>
      let updatedTrades := trades u in
      let existingTasks := tasks_or_empty (updatedTrades !! selectedTrade s) in
      let new := newTasksToAdd existingTasks suggestedTasks in
      if (0 <? length new)%nat then
        let updatedTrades := <[selectedTrade s := existingTasks ++ new]> updatedTrades in
        updateDoc (unitId s) updatedTrades;;
        showMessage ("Suggested tasks added for " +:+ selectedTrade s +:+ "!") Info
      else
        showMessage "No new unique tasks were suggested." Info
  | None => throw (TypeError "Cannot read properties of null (reading 'trades')")
  end.

(** The [try] block of [handleSuggestTasks], from the reply on.  [reply] is
    what [await fetch(...)] followed by [await response.json()] gives: the
    decoded body, or the error thrown. *)
Definition suggest_from_reply (reply : completion jsval) : M unit :=
  result ← lift reply;
  ok ← lift (shape_ok result);
  if ok : bool then
    jsonString ← lift (path result [Name "candidates"; Index 0; Name "content";
                                    Name "parts"; Index 0; Name "text"]);
    suggestedTasks ← lift (JSON_parse jsonString);
    match suggestedTasks with
    | VArr items =>
        if (0 <? length items)%nat then appendSuggestedTasks items
        else showMessage "Gemini did not return a valid list of tasks." Err
    | _ => showMessage "Gemini did not return a valid list of tasks." Err
    end
  else
    showMessage "Failed to get task suggestions from Gemini. Please try again." Err.

(** [handleSuggestTasks()] *)
Definition handleSuggestTasks (reply : completion jsval) : M unit :=
  s ← get_state;
  if negb (db s) || String.eqb (selectedTrade s) EmptyString || negb (bool_decide (is_Some (unitData s))) then
    showMessage "Please select a trade and ensure unit data is loaded." Err
  else
    modify (set_isGeneratingTasks true);;
    showMessage ("Generating tasks for " +:+ selectedTrade s +:+ "...") Info;;
    try_finally
      (try_catch
         (suggest_from_reply reply)
         (λ error, showMessage ("Error suggesting tasks: " +:+ message error) Err))
      (modify (set_isGeneratingTasks false)).

End suggest.

(** * Definitions used by the statements *)

(** The next write request is accepted by the store. *)
Definition next_accepted (s : State) : bool :=
  match faults s with
  | Some _ :: _ => false
  | _ => true
  end.

(** The signed-in, initialised application: [db && userId]. *)
Definition ready (s : State) : bool := db s && negb (no_user s).

(** The document [addUnitToFirestore] writes. *)
Definition fresh_unit (unitAddress : string) : UnitDoc :=
  mkUnit unitAddress "Not Started" defaultTrades.

(** The keys of [defaultTrades]. *)
Definition default_trade_names : list string :=
  ["Electrical"; "Plumbing"; "Drywall"; "Painting"; "Flooring"].

(** The name and address of unit [i] of [building]. *)
Definition unit_of (building : string) (i : nat) : string * string :=
  (unitName_of building i, unitAddress_of building i).

(** The units of the batch, in the order of the two loops. *)
Definition bulk_units : list (string * string) :=
  flat_map (λ building, map (unit_of building) (seq 1 20)) buildingPrefixes.

(** The store after the units of a list were written, in order. *)
Definition insert_units (units : list (string * string)) (d : gmap string UnitDoc) : gmap string UnitDoc :=
  foldl (λ d u, <[u.1 := fresh_unit u.2]> d) d units.

(** The requests that write the units of a list, and the messages that
    report them. *)
Definition requests_of (units : list (string * string)) : list Request :=
  map (λ u, SetDoc u.1 (fresh_unit u.2)) units.

Definition added_messages (units : list (string * string)) : list Message :=
  map (λ u, mkMessage ("Unit " +:+ quoted u.1 +:+ " added successfully!") Info) units.

(** The body of the inner loop of the batch, on a unit given by name and
    address: the two loops run it over [bulk_units]. *)
Definition create_one (u : string * string) (unitsAddedCount : nat) : M flow :=
  success ← addUnitToFirestore u.1 u.2;
  if success : bool then mret (Next (S unitsAddedCount))
  else
    showMessage ("Failed to add unit " +:+ u.1 +:+ ". Stopping batch generation.") Err;;
    mret Return.

(** [create_one] over a list of units, until one fails. *)
Fixpoint create_all (units : list (string * string)) (unitsAddedCount : nat) : M flow :=
  match units with
  | [] => mret (Next unitsAddedCount)
  | u :: rest =>
      f ← create_one u unitsAddedCount;
      match f with
      | Next n => create_all rest n
      | Return => mret Return
      end
  end.

(** The unit numbers, zero-padded. *)
Definition two_digits : list string :=
  ["01"; "02"; "03"; "04"; "05"; "06"; "07"; "08"; "09"; "10";
   "11"; "12"; "13"; "14"; "15"; "16"; "17"; "18"; "19"; "20"].

(** [needle] occurs in [hay]. *)
Definition mentions (needle : string) : string → bool :=
  fix go (hay : string) : bool :=
    String.prefix needle hay ||
    match hay with
    | EmptyString => false
    | String _ rest => go rest
    end.

(** Some message shown mentions the number [n]. *)
Definition reports_count (n : nat) (msgs : list Message) : bool :=
  existsb (λ m, mentions (pretty n) (text m)) msgs.

(** The home page of a signed-in user, on an empty store that accepts every
    write; and the same when the store rejects the 37th write. *)
Definition home : State :=
  mkState true (Some "user-1") EmptyString None EmptyString false ∅ [] [] [].

Definition home_call_37_fails : State :=
  set_faults (replicate 36 None ++ [Some "unavailable"]) home.

(** What a write of [newTrades] to the document [key] may do to the store:
    nothing (the write failed), or replace the [trades] field of that
    document and nothing else. *)
Definition only_trades_written (key : string) (newTrades : gmap string (list Task))
    (before after : gmap string UnitDoc) : Prop :=
  (∀ other, other ≠ key → after !! other = before !! other) ∧
  match before !! key with
  | None => after !! key = None
  | Some stored =>
      ∃ stored', after !! key = Some stored' ∧
        address stored' = address stored ∧ status stored' = status stored ∧
        (trades stored' = trades stored ∨ trades stored' = newTrades)
  end.

(** The [trades] map [handleTaskToggle] builds. *)
Definition toggle_in (tradeName : string) (taskIndex : nat) (tasks : list Task) (t : Task)
    (trs : gmap string (list Task)) : gmap string (list Task) :=
  <[tradeName := <[taskIndex := toggled t]> tasks]> trs.

(** The [trades] map [handleAddTask] and [appendSuggestedTasks] build. *)
Definition append_in (tradeName : string) (new : list Task)
    (trs : gmap string (list Task)) : gmap string (list Task) :=
  <[tradeName := tasks_or_empty (trs !! tradeName) ++ new]> trs.

(** [candidates[0].content.parts[0].text] *)
Definition text_path : list key :=
  [Name "candidates"; Index 0; Name "content"; Name "parts"; Index 0; Name "text"].

(** The suggestions a reply carries: the elements of the non-empty array that
    the text at [candidates[0].content.parts[0].text] parses to, if any. *)
Definition accepted_items `{Engine} (reply : completion jsval) : option (list jsval) :=
  match reply with
  | Returned result =>
      match path result text_path with
      | Returned jsonString =>
          match JSON_parse jsonString with
          | Returned (VArr (x :: items)) => Some (x :: items)
          | _ => None
          end
      | Thrown _ => None
      end
  | Thrown _ => None
  end.

(** [typeof v === 'string'] *)
Definition is_string (v : jsval) : bool :=
  match v with VStr _ => true | _ => false end.

(** The reply the suggestion service documents, carrying [text]. *)
Definition gemini_reply (text : string) : jsval :=
  VObj [("candidates",
         VArr [VObj [("content", VObj [("parts", VArr [VObj [("text", VStr text)]])])]])].

(** The unit "A-1" as created, and its view with Electrical selected, in
    sync with the store. *)
Definition unit_A1 : UnitDoc := mkUnit "123 Main" "Not Started" defaultTrades.

Definition view_A1 : State :=
  mkState true (Some "user-1") "A-1" (Some unit_A1) "Electrical" false
    {["A-1" := unit_A1]} [] [] [].

(** The unit "A-1" after work on it, and the home page over a store that
    holds it. *)
Definition unit_A1_in_progress : UnitDoc :=
  mkUnit "123 Main" "In Progress"
    (<["Electrical" := [mkTask (VStr "Rough-in wiring") true;
                        mkTask (VStr "Fixture installation") false]]> defaultTrades).

Definition home_with_A1 : State := set_docs {["A-1" := unit_A1_in_progress]} home.

(** Two JSON texts: [[1]] and [["Rough-in wiring", "Install conduit"]]. *)
Definition JSON_text_one : string := "[1]".

Definition JSON_text_conduit : string :=
  "[" +:+ quoted "Rough-in wiring" +:+ ", " +:+ quoted "Install conduit" +:+ "]".

(** [JSON.parse] on the texts the examples use, and a [> 0] on operands
    that the examples never reach (every [length] read there is a number). *)
Definition sample_engine : Engine := {|
  JSON_parse v :=
    match v with
    | VStr text =>
        if String.eqb text JSON_text_one then Returned (VArr [VNum 1])
        else if String.eqb text JSON_text_conduit then
          Returned (VArr [VStr "Rough-in wiring"; VStr "Install conduit"])
        else Thrown (SyntaxError "Unexpected token")
    | _ => Thrown (SyntaxError "Unexpected token")
    end;
  to_number_gt_zero _ := Returned false
|}.

(** * The rest of the application *)

(** ** Navigation

    The [App] state [currentPage] and [selectedUnitId], the two handlers
    that set them, the part of the units effect that reads the [unitId]
    parameter of the URL, and what [App] renders. *)

Inductive page : Type :=
| PageHome
| PageUnitView.

Record Nav : Type := mkNav {
  currentPage : page;
  selectedUnitId : option string
}.

(** [useState('home')], [useState(null)] *)
Definition initial_nav : Nav := mkNav PageHome None.

Definition handleUnitClick (unitId : string) (n : Nav) : Nav :=
  mkNav PageUnitView (Some unitId).

Definition handleBackToHome (n : Nav) : Nav :=
  mkNav PageHome None.

(** The units effect, as far as navigation goes.  It runs its body only
    when [isAuthReady && db && userId]; [unitIdParam] is what
    [urlParams.get('unitId')] returns, [null] when the parameter is absent. *)
Definition unitsEffect (isAuthReady : bool) (s : State) (unitIdParam : option string)
    (n : Nav) : Nav :=
  if isAuthReady && db s && negb (no_user s) then
    match unitIdParam with
    | Some param =>
        if String.eqb param EmptyString then n else mkNav PageUnitView (Some param)
    | None => n
    end
  else n.

Inductive view : Type :=
| HomePage
| UnitView (unitId : string).

(** [{currentPage === 'home' && <HomePage />}
     {currentPage === 'unitView' && selectedUnitId && <UnitView ... />}] *)
Definition render (n : Nav) : list view :=
  match currentPage n with
  | PageHome => [HomePage]
  | PageUnitView => []
  end ++
  match currentPage n, selectedUnitId n with
  | PageUnitView, Some unitId =>
      if String.eqb unitId EmptyString then [] else [UnitView unitId]
  | _, _ => []
  end.

(** What the user and the start-up do to the navigation state. *)
Inductive nav_event : Type :=
| Click (unitId : string)
| Back
| Effect (isAuthReady : bool) (s : State) (unitIdParam : option string).

Definition nav_step (n : Nav) (e : nav_event) : Nav :=
  match e with
  | Click unitId => handleUnitClick unitId n
  | Back => handleBackToHome n
  | Effect isAuthReady s unitIdParam => unitsEffect isAuthReady s unitIdParam n
  end.

Definition nav_run (es : list nav_event) : Nav := foldl nav_step initial_nav es.

(** The unit cards carry the ids of stored documents, which are not empty. *)
Definition click_of_card (e : nav_event) : Prop :=
  match e with
  | Click unitId => unitId ≠ EmptyString
  | _ => True
  end.

(** ** The add-unit dialog

    Strings are sequences of code units below 256; [trim] strips the white
    space and line terminators among them: tab, line feed, vertical tab,
    form feed, carriage return, space and no-break space. *)

Definition is_space (c : ascii) : bool :=
  let n := nat_of_ascii c in
  ((9 <=? n) && (n <=? 13)) || (n =? 32) || (n =? 160).

Fixpoint trimStart (s : string) : string :=
  match s with
  | EmptyString => EmptyString
  | String c rest => if is_space c then trimStart rest else s
  end.

Fixpoint trimEnd (s : string) : string :=
  match s with
  | EmptyString => EmptyString
  | String c rest =>
      match trimEnd rest with
      | EmptyString => if is_space c then EmptyString else String c EmptyString
      | kept => String c kept
      end
  end.

Definition trim (s : string) : string := trimEnd (trimStart s).

(** The state of [HomePage]. *)
Record Modal : Type := mkModal {
  showAddUnitModal : bool;
  newUnitName : string;
  newUnitAddress : string
}.

Definition handleOpenAddUnitModal (m : Modal) : Modal :=
  mkModal true EmptyString EmptyString.

Definition handleCloseAddUnitModal (m : Modal) : Modal :=
  mkModal false (newUnitName m) (newUnitAddress m).

Definition handleConfirmAddUnit (m : Modal) : M Modal :=
  if String.eqb (trim (newUnitName m)) EmptyString
     || String.eqb (trim (newUnitAddress m)) EmptyString then
    showMessage "Unit name and address cannot be empty." Err;;
    mret m
  else
    success ← addUnitToFirestore (newUnitName m) (newUnitAddress m);
    if success : bool then mret (handleCloseAddUnitModal m) else mret m.

(** Every character of the string is white space. *)
Fixpoint blank (s : string) : bool :=
  match s with
  | EmptyString => true
  | String c rest => is_space c && blank rest
  end.

(** ** Signing in *)

Definition set_userId (x : option string) (s : State) : State :=
  mkState (db s) x (unitId s) (unitData s) (selectedTrade s)
    (isGeneratingTasks s) (docs s) (faults s) (requests s) (messages s).

Inductive sign_in : Type :=
| signInWithCustomToken (token : string)
| signInAnonymously.

(** [if (initialAuthToken) ... else ...]: the sign-in call the callback
    makes when there is no user. *)
Definition sign_in_call (initialAuthToken : option string) : sign_in :=
  match initialAuthToken with
  | Some token =>
      if String.eqb token EmptyString then signInAnonymously
      else signInWithCustomToken token
  | None => signInAnonymously
  end.

(** The callback given to [onAuthStateChanged].  [user] is the [uid] of the
    user, or [null]; [answer] is what the sign-in call answers when one is
    made: [None] when it succeeds, [Some m] when it fails with message [m].
    The callback returns the new [isAuthReady] and the sign-in call made. *)
Definition authStateChanged (initialAuthToken : option string) (user : option string)
    (answer : option string) (isAuthReady : bool) : M (bool * option sign_in) :=
  match user with
  | Some uid =>
      modify (set_userId (Some uid));;
      mret (true, None)
  | None =>
      try_catch
        (lift (match answer with
               | None => Returned tt
               | Some m => Thrown (FirebaseError m)
               end);;
         mret (isAuthReady, Some (sign_in_call initialAuthToken)))
        (λ error,
          showMessage ("Authentication failed: " +:+ message error) Err;;
          mret (isAuthReady, Some (sign_in_call initialAuthToken)))
  end.

(** ** The unit view: snapshots and the task list *)

Definition set_selectedTrade (x : string) (s : State) : State :=
  mkState (db s) (userId s) (unitId s) (unitData s) x
    (isGeneratingTasks s) (docs s) (faults s) (requests s) (messages s).

(** The snapshot callback of [UnitView].  [Object_keys] is [Object.keys] on
    the [trades] object, whose order the store decides; the callback
    returns the new [loading]. *)
Definition unitSnapshot (Object_keys : gmap string (list Task) → list string) : M bool :=
  s ← get_state;
  match getUnit s (unitId s) with
  | Some data =>
      modify (set_unitData (Some data));;
      (if String.eqb (selectedTrade s) EmptyString then
         match Object_keys (trades data) with
         | firstTrade :: _ =>
             if String.eqb firstTrade EmptyString then mret tt
             else modify (set_selectedTrade firstTrade)
         | [] => mret tt
         end
       else mret tt);;
      mret false
  | None =>
      modify (set_unitData None);;
      showMessage ("Unit " +:+ quoted (unitId s) +:+ " not found.") Err;;
      mret false
  end.

(** [selectedTrade && unitData.trades[selectedTrade]
       ? unitData.trades[selectedTrade] : []], for the unit [u] shown. *)
Definition currentTasks (s : State) (u : UnitDoc) : list Task :=
  if String.eqb (selectedTrade s) EmptyString then []
  else tasks_or_empty (trades u !! selectedTrade s).

(** The calls the rendered task list can make: item [index] of
    [currentTasks] calls [handleTaskToggle(selectedTrade, index)].  The list
    is rendered when [unitData] is loaded and a trade is selected. *)
Definition task_clicks (s : State) : list (string * nat) :=
  match unitData s with
  | Some u => imap (λ index _, (selectedTrade s, index)) (currentTasks s u)
  | None => []
  end.

(** ** Unit names *)

(** [name] has no [/]. *)
Fixpoint slash_free (name : string) : bool :=
  match name with
  | EmptyString => true
  | String c rest => negb (Ascii.eqb c "/") && slash_free rest
  end.

(** The names that are the id of a document of the units collection: not
    empty and without [/]. *)
Definition document_id (name : string) : bool :=
  negb (String.eqb name EmptyString) && slash_free name.

(** ** States and inputs of the examples *)

(** The dialog with a name typed between spaces. *)
Definition typed_with_spaces : Modal := mkModal true " A-1 " "123 Main".

(** The keys of a [trades] object in the order the map lists them. *)
Definition listed_keys (m : gmap string (list Task)) : list string := (map_to_list m).*1.

(** The home page before anyone is signed in. *)
Definition signed_out : State := set_userId None home.

(** The view of A-1 after "Install panel" was added to Electrical and the
    snapshot of that write arrived: three tasks are listed. *)
Definition view_three_tasks : State :=
  snd (unitSnapshot listed_keys (snd (handleAddTask (Some "Install panel") view_A1))).

(** The store after another session, on its home page, added a unit under
    the name of the unit [s] shows; the snapshot of that write has not
    reached the view of [s]. *)
Definition recreated_elsewhere (s : State) : State :=
  set_docs (docs (snd (addUnitToFirestore (unitId s) "123 Main" (set_docs (docs s) home)))) s.

(** The view lists three Electrical tasks; the stored unit has two. *)
Definition view_stale : State := recreated_elsewhere view_three_tasks.

(** * Properties *)

(** ** Tactics *)

Ltac unfold_monad :=
  unfold showMessage, send in *;
  unfold mbind, M_bind, mret, M_ret, try_catch, try_finally, throw, get_state,
    modify, store_answer in *.

Ltac simpl_state :=
  unfold set_unitData, set_isGeneratingTasks, set_docs, set_faults, set_requests,
    set_messages in *;
  cbn [fst snd db userId unitId unitData selectedTrade isGeneratingTasks docs
       faults requests messages] in *.

(** ** Document references *)

Lemma split_path_slash_free name :
  slash_free name = true → split_path name = [name].
Proof.
  induction name as [|c rest IH]; simpl; [reflexivity|].
  intros H. apply andb_true_iff in H as [Hc Hrest]. apply negb_true_iff in Hc.
  rewrite Hc, (IH Hrest). reflexivity.
Qed.

Lemma has_double_slash_slash_free name :
  slash_free name = true → has_double_slash name = false.
Proof.
  induction name as [|c rest IH]; [reflexivity|].
  cbn [slash_free]. intros H. apply andb_true_iff in H as [Hc Hrest].
  apply negb_true_iff in Hc. specialize (IH Hrest).
  destruct rest as [|b rest']; [reflexivity|].
  cbn [has_double_slash]. cbn [has_double_slash] in IH. rewrite Hc. exact IH.
Qed.

(** [doc] resolves the id of a document to itself. *)
Lemma doc_document_id name :
  document_id name = true → doc name = Returned name.
Proof.
  unfold document_id, doc. intros H. apply andb_true_iff in H as [Hne Hs].
  rewrite (has_double_slash_slash_free _ Hs), (split_path_slash_free _ Hs).
  cbn [List.filter]. rewrite Hne. cbn [length Nat.odd Nat.even negb String.concat].
  reflexivity.
Qed.

Lemma split_path_segments path :
  Forall (λ segment, slash_free segment = true) (split_path path).
Proof.
  induction path as [|c rest IH]; cbn [split_path].
  - repeat constructor.
  - destruct (Ascii.eqb c "/") eqn:E.
    + constructor; [reflexivity|exact IH].
    + destruct (split_path rest) as [|segment segments].
      * repeat constructor. cbn [slash_free]. rewrite E. reflexivity.
      * apply Forall_cons in IH as [H1 H2].
        constructor; [cbn [slash_free]; rewrite E, H1; reflexivity|exact H2].
Qed.

Lemma split_path_app segment rest :
  slash_free segment = true →
  split_path (segment +:+ String "/" rest) = segment :: split_path rest.
Proof.
  induction segment as [|c segment IH]; cbn [slash_free]; intros H.
  - reflexivity.
  - apply andb_true_iff in H as [Hc Hs]. apply negb_true_iff in Hc.
    change (String c segment +:+ String "/" rest) with (String c (segment +:+ String "/" rest)).
    cbn [split_path]. rewrite Hc, (IH Hs). reflexivity.
Qed.

Lemma split_path_concat segments :
  segments ≠ [] → Forall (λ segment, slash_free segment = true) segments →
  split_path (String.concat "/" segments) = segments.
Proof.
  induction segments as [|x [|y rest] IH]; intros Hne Hs; [congruence| |].
  - apply Forall_cons in Hs as [Hx _]. apply split_path_slash_free. exact Hx.
  - apply Forall_cons in Hs as [Hx Hs].
    change (String.concat "/" (x :: y :: rest))
      with (x +:+ String "/" (String.concat "/" (y :: rest))).
    rewrite (split_path_app _ _ Hx), IH; [reflexivity|discriminate|exact Hs].
Qed.

Lemma has_double_slash_app segment rest :
  slash_free segment = true →
  (∀ rest', rest ≠ String "/" rest') → has_double_slash rest = false →
  has_double_slash (segment +:+ String "/" rest) = false.
Proof.
  intros Hs Hhead Hrest. induction segment as [|c segment IH].
  - change (EmptyString +:+ String "/" rest) with (String "/" rest).
    destruct rest as [|b rest']; [reflexivity|].
    cbn [has_double_slash]. cbn [has_double_slash] in Hrest. rewrite Hrest.
    destruct (Ascii.eqb_spec b "/") as [->|Hb]; [exfalso; eapply Hhead; reflexivity|].
    reflexivity.
  - cbn [slash_free] in Hs. apply andb_true_iff in Hs as [Hc Hs]. apply negb_true_iff in Hc.
    specialize (IH Hs).
    change (String c segment +:+ String "/" rest) with (String c (segment +:+ String "/" rest)).
    destruct (segment +:+ String "/" rest) as [|b tl] eqn:E; [reflexivity|].
    cbn [has_double_slash]. cbn [has_double_slash] in IH. rewrite Hc, IH. reflexivity.
Qed.

Lemma concat_head x rest rest' :
  x ≠ EmptyString → slash_free x = true →
  String.concat "/" (x :: rest) ≠ String "/" rest'.
Proof.
  intros Hne Hs. destruct x as [|c x']; [congruence|].
  cbn [slash_free] in Hs. apply andb_true_iff in Hs as [Hc _]. apply negb_true_iff in Hc.
  destruct rest as [|y rest].
  - cbn. intros E. inversion E; subst. discriminate Hc.
  - change (String.concat "/" (String c x' :: y :: rest))
      with (String c (x' +:+ String "/" (String.concat "/" (y :: rest)))).
    intros E. inversion E; subst. discriminate Hc.
Qed.

Lemma has_double_slash_concat segments :
  Forall (λ segment, segment ≠ EmptyString ∧ slash_free segment = true) segments →
  has_double_slash (String.concat "/" segments) = false.
Proof.
  induction segments as [|x [|y rest] IH]; intros Hs; [reflexivity| |].
  - apply Forall_cons in Hs as [[_ Hx] _]. apply has_double_slash_slash_free. exact Hx.
  - apply Forall_cons in Hs as [[_ Hx] Hs].
    change (String.concat "/" (x :: y :: rest))
      with (x +:+ String "/" (String.concat "/" (y :: rest))).
    apply has_double_slash_app; [exact Hx| |exact (IH Hs)].
    intros rest'. apply Forall_cons in Hs as [[Hy Hy'] _]. apply concat_head; assumption.
Qed.

(** A reference resolves to itself: the handlers of the view, which call
    [doc] on [unitId] again, address the document the view subscribed to. *)
Lemma doc_resolved name unitRef :
  doc name = Returned unitRef → doc unitRef = Returned unitRef.
Proof.
  unfold doc at 1. destruct (has_double_slash name); [discriminate|].
  set (segments := List.filter _ (split_path name)).
  destruct (Nat.odd (length segments)) eqn:Hodd; [|discriminate].
  intros E. inversion E as [Eref]. clear E.
  assert (Hall : Forall (λ segment, segment ≠ EmptyString ∧ slash_free segment = true) segments).
  { apply Forall_forall. intros segment Hin. apply list_elem_of_In in Hin.
    apply filter_In in Hin as [Hin Hne]. split.
    - apply negb_true_iff, String.eqb_neq in Hne. exact Hne.
    - pose proof (split_path_segments name) as Hs. rewrite Forall_forall in Hs.
      apply Hs. apply list_elem_of_In. exact Hin. }
  assert (Hne : segments ≠ []) by (intros E; rewrite E in Hodd; discriminate).
  unfold doc. rewrite (has_double_slash_concat _ Hall).
  rewrite split_path_concat; [|exact Hne|eapply Forall_impl; [exact Hall|intros ? [_ H]; exact H]].
  replace (List.filter (λ segment, negb (String.eqb segment EmptyString)) segments) with segments.
  - rewrite Hodd. reflexivity.
  - clear -Hall. induction Hall as [|x l [Hx _] _ IH]; [reflexivity|].
    cbn [List.filter]. apply String.eqb_neq in Hx. rewrite Hx. cbn [negb]. f_equal. exact IH.
Qed.

(** ** The store *)

Lemma addUnitToFirestore_accepted s unitName unitAddress unitRef :
  doc unitName = Returned unitRef →
  ready s = true → next_accepted s = true →
  addUnitToFirestore unitName unitAddress s =
    (Returned true,
     set_messages (messages s ++ [mkMessage ("Unit " +:+ quoted unitName +:+ " added successfully!") Info])
       (set_docs (<[unitRef := fresh_unit unitAddress]> (docs s))
          (set_faults (tail (faults s))
             (set_requests (requests s ++ [SetDoc unitRef (fresh_unit unitAddress)]) s)))).
Proof.
  unfold ready, next_accepted, addUnitToFirestore, setDoc. unfold_monad. unfold lift.
  destruct s as [d uid un ud st ig dcs fts reqs msgs]; cbn [db faults].
  intros -> Hr Ha. apply andb_true_iff in Hr as [-> Hu]. rewrite negb_true_iff in Hu.
  rewrite Hu. cbn [negb orb].
  destruct fts as [|[m|] rest]; simpl; try discriminate; reflexivity.
Qed.

Lemma addUnitToFirestore_rejected s unitName unitAddress unitRef m rest :
  doc unitName = Returned unitRef →
  ready s = true → faults s = Some m :: rest →
  addUnitToFirestore unitName unitAddress s =
    (Returned false,
     set_messages (messages s ++ [mkMessage ("Error adding unit: " +:+ m) Err])
       (set_faults rest
          (set_requests (requests s ++ [SetDoc unitRef (fresh_unit unitAddress)]) s))).
Proof.
  unfold ready, addUnitToFirestore, setDoc. unfold_monad. unfold lift.
  destruct s as [d uid un ud st ig dcs fts reqs msgs]; cbn [db faults].
  intros -> Hr ->. apply andb_true_iff in Hr as [-> Hu]. rewrite negb_true_iff in Hu.
  rewrite Hu. reflexivity.
Qed.

(** A name that [doc] refuses: the error is caught, nothing is sent. *)
Lemma addUnitToFirestore_invalid s unitName unitAddress error :
  doc unitName = Thrown error →
  ready s = true →
  addUnitToFirestore unitName unitAddress s =
    (Returned false,
     set_messages (messages s ++ [mkMessage ("Error adding unit: " +:+ message error) Err]) s).
Proof.
  unfold ready, addUnitToFirestore, setDoc. unfold_monad. unfold lift.
  destruct s as [d uid un ud st ig dcs fts reqs msgs]; cbn [db faults].
  intros -> Hr. apply andb_true_iff in Hr as [-> Hu]. rewrite negb_true_iff in Hu.
  rewrite Hu. reflexivity.
Qed.

Lemma updateDoc_accepted key newTrades s stored :
  next_accepted s = true → docs s !! key = Some stored →
  updateDoc key newTrades s =
    (Returned tt,
     set_docs (<[key := with_trades newTrades stored]> (docs s))
       (set_faults (tail (faults s))
          (set_requests (requests s ++ [UpdateDoc key newTrades]) s))).
Proof.
  unfold next_accepted, updateDoc. unfold_monad.
  destruct s as [d uid un ud st ig dcs fts reqs msgs]; simpl. intros Ha Hs.
  destruct fts as [|[m|] rest]; simpl; try discriminate; rewrite Hs; reflexivity.
Qed.

Lemma updateDoc_rejected key newTrades s m rest :
  faults s = Some m :: rest →
  updateDoc key newTrades s =
    (Thrown (FirebaseError m),
     set_faults rest (set_requests (requests s ++ [UpdateDoc key newTrades]) s)).
Proof.
  unfold updateDoc. unfold_monad.
  destruct s as [d uid un ud st ig dcs fts reqs msgs]; simpl_state.
  intros ->. reflexivity.
Qed.

Lemma only_trades_written_same key newTrades d :
  only_trades_written key newTrades d d.
Proof.
  split; [reflexivity|]. destruct (d !! key) as [stored|] eqn:E; [|reflexivity].
  exists stored. auto.
Qed.

Lemma only_trades_written_insert key newTrades d stored :
  d !! key = Some stored →
  only_trades_written key newTrades d (<[key := with_trades newTrades stored]> d).
Proof.
  intros E. split.
  - intros other Ho. apply lookup_insert_ne. congruence.
  - rewrite E. exists (with_trades newTrades stored). rewrite lookup_insert_eq. auto.
Qed.

(** Whatever the store answers, [updateDoc] logs its request and touches at
    most the [trades] field of the document it addresses. *)
Lemma updateDoc_runs key newTrades s :
  ∃ r d' f',
    updateDoc key newTrades s =
      (r, set_docs d' (set_faults f' (set_requests (requests s ++ [UpdateDoc key newTrades]) s))) ∧
    only_trades_written key newTrades (docs s) d'.
Proof.
  unfold updateDoc. unfold_monad.
  destruct s as [d uid un ud st ig dcs fts reqs msgs]; simpl.
  destruct (dcs !! key) as [stored|] eqn:E; destruct fts as [|[m|] rest]; simpl;
    rewrite ?E; eexists _, _, _; simpl_state; (split; [reflexivity|]);
    first [apply only_trades_written_same | apply only_trades_written_insert; exact E].
Qed.

(** ** Creating a unit *)

Lemma defaultTrades_shape :
  dom defaultTrades = list_to_set default_trade_names ∧
  map_Forall (λ _ tasks, length tasks = 2 ∧ Forall (λ t, completed t = false) tasks)
             defaultTrades.
Proof.
  split.
  - unfold defaultTrades, default_trade_names. rewrite dom_list_to_map_L. reflexivity.
  - unfold defaultTrades. simpl.
    repeat (apply map_Forall_insert_2; [split; [reflexivity | repeat constructor] |]).
    apply map_Forall_empty.
Qed.

(** C4, as the code has it.  Creating a unit and then reading it, for a
    name that [doc] resolves to a document reference [unitRef]: when the
    application is ready and the store accepts the write,
    [addUnitToFirestore] returns [true] and [getUnit] yields, for that
    document, the unit with the given address, status "Not Started" and the
    default trades: exactly the five trades Electrical, Plumbing, Drywall,
    Painting and Flooring, each with two tasks, every task with
    [completed = false]; Electrical is "Rough-in wiring", "Fixture
    installation".  A name that is not empty and has no [/] is the id of its
    document: [unitRef] is the name. *)
Theorem createUnit_then_getUnit s unitName unitAddress unitRef :
  ready s = true → next_accepted s = true →
  doc unitName = Returned unitRef →
  let run := addUnitToFirestore unitName unitAddress s in
  fst run = Returned true ∧
  getUnit (snd run) unitRef = Some (mkUnit unitAddress "Not Started" defaultTrades) ∧
  (document_id unitName = true → unitRef = unitName) ∧
  dom defaultTrades = list_to_set default_trade_names ∧
  NoDup default_trade_names ∧ length default_trade_names = 5 ∧
  map_Forall (λ _ tasks, length tasks = 2 ∧ Forall (λ t, completed t = false) tasks)
             defaultTrades ∧
  defaultTrades !! "Electrical" =
    Some [mkTask (VStr "Rough-in wiring") false; mkTask (VStr "Fixture installation") false].
Proof.
  intros Hr Ha Hdoc run. subst run.
  rewrite (addUnitToFirestore_accepted _ _ _ _ Hdoc Hr Ha). simpl.
  split; [reflexivity|]. split.
  { unfold getUnit. destruct s; simpl. apply lookup_insert_eq. }
  split.
  { intros Hid. apply doc_document_id in Hid. congruence. }
  destruct defaultTrades_shape as [Hd Hf].
  split; [exact Hd|]. split; [|split; [reflexivity|split; [exact Hf | reflexivity]]].
  refine (bool_decide_unpack _ _). vm_compute. exact I.
Qed.

Lemma createUnit_then_getUnit_witness :
  ready home = true ∧ next_accepted home = true ∧ doc "A-1" = Returned "A-1" ∧
  getUnit (snd (addUnitToFirestore "A-1" "123 Main" home)) "A-1" =
    Some (mkUnit "123 Main" "Not Started" defaultTrades).
Proof.
  split; [reflexivity|]. split; [reflexivity|]. split; [reflexivity|].
  apply (createUnit_then_getUnit home "A-1" "123 Main" "A-1"); reflexivity.
Defined.

(** C4 fails as stated: the name "A/1" is not empty, the application is
    ready and the store accepts every write, yet [doc] refuses the name
    (two segments), [addUnitToFirestore] returns [false] with the error
    shown, no write is sent, nothing is stored, and [getUnit] finds no
    unit. *)
Lemma createUnit_slash_name_refused :
  ready home = true ∧ next_accepted home = true ∧
  String.eqb "A/1" EmptyString = false ∧
  fst (addUnitToFirestore "A/1" "123 Main" home) = Returned false ∧
  requests (snd (addUnitToFirestore "A/1" "123 Main" home)) = [] ∧
  docs (snd (addUnitToFirestore "A/1" "123 Main" home)) = ∅ ∧
  (∃ why, messages (snd (addUnitToFirestore "A/1" "123 Main" home)) =
            [mkMessage ("Error adding unit: " +:+ why) Err]) ∧
  ¬ (fst (addUnitToFirestore "A/1" "123 Main" home) = Returned true ∧
     getUnit (snd (addUnitToFirestore "A/1" "123 Main" home)) "A/1" =
       Some (mkUnit "123 Main" "Not Started" defaultTrades)).
Proof.
  split; [reflexivity|]. split; [reflexivity|]. split; [reflexivity|].
  split; [reflexivity|]. split; [reflexivity|]. split; [reflexivity|].
  split; [eexists; reflexivity|].
  intros [Htrue _]. vm_compute in Htrue. discriminate Htrue.
Qed.

(** C1, as the code has it.  [addUnitToFirestore] does not look for an
    existing unit.  Called with the name of a unit that is already stored
    ([doc] resolves the name to the reference [unitRef] of a stored
    document: the name itself when it is a document id), it reports success
    and replaces the stored document by a fresh default unit whenever the
    store accepts the write; it reports failure, and leaves the stored
    document as it was, only when the store rejects the write. *)
Theorem addUnit_overwrites_existing s unitName unitAddress unitRef old :
  ready s = true → doc unitName = Returned unitRef → docs s !! unitRef = Some old →
  let run := addUnitToFirestore unitName unitAddress s in
  (document_id unitName = true → unitRef = unitName) ∧
  (next_accepted s = true →
     fst run = Returned true ∧
     docs (snd run) = <[unitRef := mkUnit unitAddress "Not Started" defaultTrades]> (docs s) ∧
     getUnit (snd run) unitRef = Some (mkUnit unitAddress "Not Started" defaultTrades) ∧
     last (messages (snd run)) =
       Some (mkMessage ("Unit " +:+ quoted unitName +:+ " added successfully!") Info)) ∧
  (next_accepted s = false →
     fst run = Returned false ∧ docs (snd run) = docs s ∧
     getUnit (snd run) unitRef = Some old ∧
     ∃ why, last (messages (snd run)) = Some (mkMessage ("Error adding unit: " +:+ why) Err)).
Proof.
  intros Hr Hdoc Hold run. subst run. split; [|split].
  - intros Hid. apply doc_document_id in Hid. congruence.
  - intros Ha. rewrite (addUnitToFirestore_accepted _ _ _ _ Hdoc Hr Ha).
    destruct s; simpl_state. unfold getUnit. simpl_state.
    rewrite lookup_insert_eq, last_snoc. auto.
  - intros Ha. unfold next_accepted in Ha.
    destruct (faults s) as [|[m|] rest] eqn:Ef; try discriminate.
    rewrite (addUnitToFirestore_rejected _ _ _ _ m rest Hdoc Hr Ef).
    destruct s; simpl_state. unfold getUnit. simpl_state. rewrite last_snoc. eauto.
Qed.

Lemma addUnit_overwrites_existing_witness :
  ready home_with_A1 = true ∧ doc "A-1" = Returned "A-1" ∧
  docs home_with_A1 !! "A-1" = Some unit_A1_in_progress ∧
  next_accepted home_with_A1 = true ∧
  docs (snd (addUnitToFirestore "A-1" "9 Elm St" home_with_A1)) =
    <["A-1" := mkUnit "9 Elm St" "Not Started" defaultTrades]> (docs home_with_A1).
Proof.
  split; [reflexivity|]. split; [reflexivity|]. split; [reflexivity|].
  split; [reflexivity|].
  apply (addUnit_overwrites_existing home_with_A1 "A-1" "9 Elm St" "A-1" unit_A1_in_progress);
    reflexivity.
Defined.

(** C1 fails as stated: the unit "A-1" is stored, with a task completed and
    the status "In Progress"; adding a unit named "A-1" returns [true] and
    the stored unit is replaced. *)
Lemma addUnit_existing_not_rejected :
  getUnit home_with_A1 "A-1" = Some unit_A1_in_progress ∧
  fst (addUnitToFirestore "A-1" "9 Elm St" home_with_A1) = Returned true ∧
  getUnit (snd (addUnitToFirestore "A-1" "9 Elm St" home_with_A1)) "A-1"
    = Some (mkUnit "9 Elm St" "Not Started" defaultTrades) ∧
  ¬ (fst (addUnitToFirestore "A-1" "9 Elm St" home_with_A1) = Returned false ∧
     getUnit (snd (addUnitToFirestore "A-1" "9 Elm St" home_with_A1)) "A-1"
       = Some unit_A1_in_progress).
Proof.
  split; [reflexivity|]. split; [reflexivity|]. split; [reflexivity|].
  intros [Hfail _]. vm_compute in Hfail. discriminate Hfail.
Qed.

(** ** Bulk generation *)

Lemma create_all_app l1 l2 count s :
  create_all (l1 ++ l2) count s =
  match create_all l1 count s with
  | (Returned (Next n), s') => create_all l2 n s'
  | other => other
  end.
Proof.
  revert count s. induction l1 as [|u l1 IH]; intros count s; simpl.
  - reflexivity.
  - unfold mbind, M_bind. destruct (create_one u count s) as [[[n|]|e] s1]; simpl.
    + apply IH.
    + reflexivity.
    + reflexivity.
Qed.

Lemma for_units_flat building indices count s :
  for_units building indices count s = create_all (map (unit_of building) indices) count s.
Proof.
  revert count s. induction indices as [|i rest IH]; intros count s; simpl.
  - reflexivity.
  - unfold mbind, M_bind.
    change (generate_unit building i count s) with (create_one (unit_of building i) count s).
    destruct (create_one (unit_of building i) count s) as [[[n|]|e] s1]; simpl; auto.
Qed.

Lemma for_buildings_flat buildings count s :
  for_buildings buildings count s =
  create_all (flat_map (λ building, map (unit_of building) (seq 1 20)) buildings) count s.
Proof.
  revert count s. induction buildings as [|b rest IH]; intros count s.
  - reflexivity.
  - cbn [for_buildings flat_map]. rewrite create_all_app. unfold mbind, M_bind.
    rewrite for_units_flat.
    destruct (create_all (map (unit_of b) (seq 1 20)) count s) as [[[n|]|e] s1]; simpl; auto.
Qed.

(** The loop over units whose writes are all accepted. *)
Lemma create_all_accepted units : ∀ count s,
  Forall (λ u, doc u.1 = Returned u.1) units →
  ready s = true →
  Forall (λ f, f = None) (take (length units) (faults s)) →
  create_all units count s =
    (Returned (Next (count + length units)),
     set_messages (messages s ++ added_messages units)
       (set_docs (insert_units units (docs s))
          (set_faults (drop (length units) (faults s))
             (set_requests (requests s ++ requests_of units) s)))).
Proof.
  induction units as [|u rest IH]; intros count s Hdoc Hr Hf.
  - destruct s; simpl. rewrite !app_nil_r, Nat.add_0_r. reflexivity.
  - apply Forall_cons in Hdoc as [Hu Hdoc].
    cbn [create_all]. unfold mbind at 1, M_bind at 1. unfold create_one.
    unfold mbind at 1, M_bind at 1.
    rewrite (addUnitToFirestore_accepted _ _ _ _ Hu); [|exact Hr|].
    2:{ unfold next_accepted. destruct (faults s) as [|[m|] fs]; try reflexivity.
        simpl in Hf. inversion Hf; discriminate. }
    cbn [mret M_ret].
    rewrite IH.
    + destruct s as [d uid un ud st ig dcs fts reqs msgs]; simpl.
      rewrite <- !app_assoc. simpl.
      replace (count + S (length rest)) with (S (count + length rest)) by lia.
      destruct fts; simpl; rewrite ?drop_nil; reflexivity.
    + exact Hdoc.
    + destruct s; exact Hr.
    + destruct s as [d uid un ud st ig dcs fts reqs msgs]; simpl in *.
      destruct fts as [|f fs]; simpl in *.
      * rewrite take_nil. constructor.
      * inversion Hf; assumption.
Qed.

(** The loop stops at the first rejected write. *)
Lemma create_all_rejected pre u post count s m :
  Forall (λ u, doc u.1 = Returned u.1) (pre ++ [u]) →
  ready s = true →
  take (length pre) (faults s) = replicate (length pre) None →
  faults s !! length pre = Some (Some m) →
  create_all (pre ++ u :: post) count s =
    (Returned Return,
     set_messages (messages s ++ added_messages pre ++
                     [mkMessage ("Error adding unit: " +:+ m) Err;
                      mkMessage ("Failed to add unit " +:+ u.1 +:+ ". Stopping batch generation.") Err])
       (set_docs (insert_units pre (docs s))
          (set_faults (drop (S (length pre)) (faults s))
             (set_requests (requests s ++ requests_of (pre ++ [u])) s)))).
Proof.
  intros Hdoc Hr Ht Hl. apply Forall_app in Hdoc as [Hpre Hu].
  apply Forall_cons in Hu as [Hu _].
  rewrite create_all_app, create_all_accepted; [|exact Hpre|exact Hr|].
  2:{ rewrite Ht. apply Forall_replicate. reflexivity. }
  cbn [create_all]. unfold mbind at 1, M_bind at 1. unfold create_one.
  unfold mbind at 1, M_bind at 1.
  rewrite (addUnitToFirestore_rejected _ _ _ _ m (drop (S (length pre)) (faults s)) Hu).
  - destruct s as [d uid un ud st ig dcs fts reqs msgs]; simpl.
    unfold requests_of. rewrite map_app, <- !app_assoc. reflexivity.
  - destruct s; exact Hr.
  - destruct s as [d uid un ud st ig dcs fts reqs msgs]; simpl in *.
    apply drop_S. exact Hl.
Qed.

Lemma insert_units_dom units : ∀ d,
  dom (insert_units units d) = dom d ∪ list_to_set units.*1.
Proof.
  induction units as [|u rest IH]; intros d; simpl.
  - symmetry. apply (right_id_L ∅ (∪)).
  - unfold insert_units in *. simpl. rewrite IH, dom_insert_L.
    rewrite (comm_L (∪) {[u.1]} (dom d)), (assoc_L (∪)). reflexivity.
Qed.

Lemma insert_units_size units : ∀ d,
  NoDup units.*1 → (∀ u, u ∈ units → d !! u.1 = None) →
  size (insert_units units d) = size d + length units.
Proof.
  induction units as [|u rest IH]; intros d Hn Hd; simpl.
  - lia.
  - unfold insert_units in *. simpl. simpl in Hn. apply NoDup_cons in Hn as [Hu Hn].
    rewrite IH; [| exact Hn |].
    + rewrite map_size_insert_None; [lia|]. apply Hd. left.
    + intros v Hv. rewrite lookup_insert_ne.
      * apply Hd. right. exact Hv.
      * intros E. apply Hu. rewrite E. apply list_elem_of_fmap. exists v. split; [reflexivity|exact Hv].
Qed.

Lemma bulk_units_names :
  bulk_units.*1 =
    flat_map (λ prefix, map (λ nn, prefix +:+ "-Unit" +:+ nn) two_digits) buildingPrefixes ∧
  length bulk_units = 80 ∧ NoDup bulk_units.*1.
Proof.
  split; [reflexivity|]. split; [reflexivity|].
  refine (bool_decide_unpack _ _). vm_compute. exact I.
Qed.

(** The names of the batch are document ids. *)
Lemma bulk_units_resolved : Forall (λ u, doc u.1 = Returned u.1) bulk_units.
Proof.
  apply Forall_forall. intros u Hu. apply doc_document_id.
  assert (H : forallb (λ u : string * string, document_id u.1) bulk_units = true)
    by (vm_compute; reflexivity).
  rewrite forallb_forall in H. apply H. apply list_elem_of_In. exact Hu.
Qed.

(** C3, as the code has it.  The batch sends one [setDoc] per unit, for the
    four prefixes and the numbers 01..20, in the order of [bulk_units]: 80
    distinct names [{Prefix}-Unit{NN}].
    - When the store accepts the first 80 writes, all 80 units are stored
      and the last message is "Successfully added 80 units!".
    - When the first [k] writes are accepted and write [k+1] is rejected,
      exactly the first [k] units are stored, exactly [k+1] requests were
      sent, and the last message names the unit that failed; the count is
      not part of it. *)
Theorem bulk_generation s :
  ready s = true →
  let run := handleGenerateMultipleUnits true s in
  (bulk_units.*1 =
     flat_map (λ prefix, map (λ nn, prefix +:+ "-Unit" +:+ nn) two_digits) buildingPrefixes ∧
   length bulk_units = 80 ∧ NoDup bulk_units.*1) ∧
  (Forall (λ f, f = None) (take 80 (faults s)) →
     run =
       (Returned tt,
        set_messages (messages s ++ [mkMessage "Generating units, please wait..." Info] ++
                      added_messages bulk_units ++
                      [mkMessage "Successfully added 80 units!" Info])
          (set_docs (insert_units bulk_units (docs s))
             (set_faults (drop 80 (faults s))
                (set_requests (requests s ++ requests_of bulk_units) s)))) ∧
     dom (docs (snd run)) = dom (docs s) ∪ list_to_set bulk_units.*1 ∧
     ((∀ u, u ∈ bulk_units → docs s !! u.1 = None) →
        size (docs (snd run)) = size (docs s) + 80)) ∧
  (∀ k m u,
     take k (faults s) = replicate k None →
     faults s !! k = Some (Some m) →
     bulk_units !! k = Some u →
     run =
       (Returned tt,
        set_messages (messages s ++ [mkMessage "Generating units, please wait..." Info] ++
                      added_messages (take k bulk_units) ++
                      [mkMessage ("Error adding unit: " +:+ m) Err;
                       mkMessage ("Failed to add unit " +:+ u.1 +:+
                                  ". Stopping batch generation.") Err])
          (set_docs (insert_units (take k bulk_units) (docs s))
             (set_faults (drop (S k) (faults s))
                (set_requests (requests s ++ requests_of (take (S k) bulk_units)) s)))) ∧
     dom (docs (snd run)) = dom (docs s) ∪ list_to_set (take k bulk_units).*1 ∧
     ((∀ u, u ∈ bulk_units → docs s !! u.1 = None) →
        size (docs (snd run)) = size (docs s) + k)).
Proof.
  intros Hr run. split; [exact bulk_units_names|].
  assert (Hrun : run =
    match create_all bulk_units 0
            (set_messages (messages s ++ [mkMessage "Generating units, please wait..." Info]) s) with
    | (Returned (Next n), s') =>
        showMessage ("Successfully added " +:+ pretty n +:+ " units!") Info s'
    | (Returned Return, s') => (Returned tt, s')
    | (Thrown e, s') => (Thrown e, s')
    end).
  { subst run. unfold handleGenerateMultipleUnits. unfold_monad.
    unfold ready in Hr. apply andb_true_iff in Hr as [Hd Hu].
    rewrite negb_true_iff in Hu. rewrite Hd, Hu. cbn [negb orb].
    cbv beta iota. rewrite for_buildings_flat. fold bulk_units.
    destruct (create_all bulk_units 0 _) as [[[n|]|e] s1]; reflexivity. }
  assert (Hr' : ready (set_messages (messages s ++ [mkMessage "Generating units, please wait..." Info]) s) = true)
    by (destruct s; exact Hr).
  split.
  - intros Hf.
    assert (E : run = (Returned tt,
        set_messages (messages s ++ [mkMessage "Generating units, please wait..." Info] ++
                      added_messages bulk_units ++
                      [mkMessage "Successfully added 80 units!" Info])
          (set_docs (insert_units bulk_units (docs s))
             (set_faults (drop 80 (faults s))
                (set_requests (requests s ++ requests_of bulk_units) s))))).
    { rewrite Hrun, create_all_accepted;
        [|exact bulk_units_resolved|exact Hr'|destruct s; exact Hf].
      destruct s as [d uid un ud st ig dcs fts reqs msgs]. unfold showMessage, modify.
      cbn -[bulk_units added_messages requests_of insert_units].
      rewrite <- !app_assoc. reflexivity. }
    split; [exact E|]. rewrite E. destruct s as [d uid un ud st ig dcs fts reqs msgs].
    cbn -[bulk_units insert_units]. split.
    + apply insert_units_dom.
    + intros Hnone. apply (insert_units_size bulk_units); [apply bulk_units_names | exact Hnone].
  - intros k m u Ht Hl Hu.
    assert (Hk : length (take k bulk_units) = k).
    { apply lookup_lt_Some in Hu. rewrite length_take. lia. }
    assert (E : run = (Returned tt,
        set_messages (messages s ++ [mkMessage "Generating units, please wait..." Info] ++
                      added_messages (take k bulk_units) ++
                      [mkMessage ("Error adding unit: " +:+ m) Err;
                       mkMessage ("Failed to add unit " +:+ u.1 +:+
                                  ". Stopping batch generation.") Err])
          (set_docs (insert_units (take k bulk_units) (docs s))
             (set_faults (drop (S k) (faults s))
                (set_requests (requests s ++ requests_of (take (S k) bulk_units)) s))))).
    { rewrite Hrun. rewrite <- (take_drop_middle bulk_units k u Hu) at 1.
      rewrite (create_all_rejected _ _ _ _ _ m); [| |exact Hr'| |].
      2:{ rewrite <- (take_S_r _ _ _ Hu). apply Forall_take. exact bulk_units_resolved. }
      - rewrite Hk. rewrite (take_S_r _ _ _ Hu).
        destruct s as [d uid un ud st ig dcs fts reqs msgs].
        cbn -[bulk_units added_messages requests_of insert_units].
        rewrite <- !app_assoc. reflexivity.
      - rewrite Hk. destruct s; exact Ht.
      - rewrite Hk. destruct s; exact Hl. }
    split; [exact E|]. rewrite E. destruct s as [d uid un ud st ig dcs fts reqs msgs].
    cbn -[bulk_units insert_units]. split.
    + apply insert_units_dom.
    + intros Hnone. rewrite insert_units_size.
      * rewrite Hk. reflexivity.
      * rewrite fmap_take.
        apply (sublist_NoDup _ bulk_units.*1); [apply bulk_units_names | apply sublist_take].
      * intros v Hv. apply Hnone. apply (subseteq_take k). exact Hv.
Qed.

Lemma bulk_generation_witness :
  ready home = true ∧ ready home_call_37_fails = true ∧
  size (docs (snd (handleGenerateMultipleUnits true home))) = 80 ∧
  size (docs (snd (handleGenerateMultipleUnits true home_call_37_fails))) = 36 ∧
  requests (snd (handleGenerateMultipleUnits true home_call_37_fails)) =
    requests_of (take 37 bulk_units).
Proof.
  split; [reflexivity|]. split; [reflexivity|].
  destruct (bulk_generation home eq_refl) as (_ & Hall & _).
  destruct (bulk_generation home_call_37_fails eq_refl) as (_ & _ & Hfail).
  split.
  - destruct Hall as (_ & _ & Hsize).
    + vm_compute. constructor.
    + apply Hsize. intros u _. apply lookup_empty.
  - destruct (Hfail 36 "unavailable" ("BuildingB-Unit17", "BuildingB Address, Unit 17"))
      as (E & _ & Hsize); [reflexivity|reflexivity|reflexivity|].
    split.
    + apply Hsize. intros u _. apply lookup_empty.
    + rewrite E. reflexivity.
Defined.

(** C3 fails as stated in its last part: when the 37th call fails, 36 units
    are stored and 37 requests were sent, the batch stops with the message
    naming BuildingB-Unit17, and no message shown mentions the count 36. *)
Lemma bulk_generation_stops_without_count :
  let run := handleGenerateMultipleUnits true home_call_37_fails in
  size (docs (snd run)) = 36 ∧ length (requests (snd run)) = 37 ∧
  last (messages (snd run)) =
    Some (mkMessage "Failed to add unit BuildingB-Unit17. Stopping batch generation." Err) ∧
  reports_count 36 (messages (snd run)) = false.
Proof. vm_compute. auto. Qed.

(** ** Toggling a task *)

Lemma handleTaskToggle_valid s u tradeName taskIndex tasks t :
  db s = true → unitData s = Some u →
  trades u !! tradeName = Some tasks → tasks !! taskIndex = Some t →
  let written := toggle_in tradeName taskIndex tasks t (trades u) in
  let s1 := set_unitData (Some (with_trades written u)) s in
  handleTaskToggle tradeName taskIndex s =
    match updateDoc (unitId s) written s1 with
    | (Returned _, s2) =>
        (Returned tt,
         set_messages (messages s2 ++ [mkMessage ("Task updated for " +:+ tradeName +:+ "!") Info]) s2)
    | (Thrown e, s2) =>
        (Returned tt,
         set_messages (messages s2 ++ [mkMessage ("Error updating task: " +:+ message e) Err]) s2)
    end.
Proof.
  intros Hd Hu Ht Hi written s1. subst written s1.
  unfold handleTaskToggle, toggle_in.
  unfold mbind at 1, M_bind at 1, get_state at 1. cbv beta iota.
  rewrite Hu, Hd. cbn [negb]. rewrite Ht. unfold spread.
  unfold mbind at 1, M_bind at 1. cbn [mret M_ret].
  unfold task_at. rewrite Hi.
  unfold mbind at 1, M_bind at 1. cbn [mret M_ret].
  unfold mbind at 1, M_bind at 1, modify at 1. cbv beta iota.
  unfold try_catch. unfold mbind at 1, M_bind at 1.
  destruct (updateDoc _ _ _) as [[[]|e] s2]; reflexivity.
Qed.

Lemma toggled_toggled t : toggled (toggled t) = t.
Proof. destruct t as [x c]. unfold toggled. simpl. rewrite negb_involutive. reflexivity. Qed.

Lemma toggle_in_twice tradeName taskIndex tasks t (trs : gmap string (list Task)) :
  trs !! tradeName = Some tasks → tasks !! taskIndex = Some t →
  toggle_in tradeName taskIndex (<[taskIndex := toggled t]> tasks) (toggled t)
    (toggle_in tradeName taskIndex tasks t trs) = trs.
Proof.
  intros Ht Hi. unfold toggle_in.
  rewrite insert_insert_eq, list_insert_insert_eq, toggled_toggled.
  rewrite (list_insert_id _ _ _ Hi). apply insert_id. exact Ht.
Qed.

Lemma with_trades_back u written : with_trades (trades u) (with_trades written u) = u.
Proof. destruct u. reflexivity. Qed.

Lemma handleTaskToggle_effect s u tradeName taskIndex tasks t :
  db s = true → unitData s = Some u →
  trades u !! tradeName = Some tasks → tasks !! taskIndex = Some t →
  let written := toggle_in tradeName taskIndex tasks t (trades u) in
  ∃ d' f' msg,
    handleTaskToggle tradeName taskIndex s =
      (Returned tt,
       set_messages (messages s ++ [msg])
         (set_docs d'
            (set_faults f'
               (set_requests (requests s ++ [UpdateDoc (unitId s) written])
                  (set_unitData (Some (with_trades written u)) s))))) ∧
    only_trades_written (unitId s) written (docs s) d' ∧
    (next_accepted s = true → ∀ stored, docs s !! unitId s = Some stored →
       d' = <[unitId s := with_trades written stored]> (docs s) ∧ f' = tail (faults s) ∧
       msg = mkMessage ("Task updated for " +:+ tradeName +:+ "!") Info).
Proof.
  intros Hd Hu Ht Hi written.
  rewrite (handleTaskToggle_valid s u tradeName taskIndex tasks t Hd Hu Ht Hi).
  fold written.
  destruct (updateDoc_runs (unitId s) written (set_unitData (Some (with_trades written u)) s))
    as (r & d' & f' & E & Hw).
  assert (Hacc : next_accepted s = true → ∀ stored, docs s !! unitId s = Some stored →
            r = Returned tt ∧ d' = <[unitId s := with_trades written stored]> (docs s) ∧
            f' = tail (faults s)).
  { intros Ha stored Hs.
    rewrite (updateDoc_accepted _ _ _ stored) in E.
    - destruct s; simpl_state. inversion E. auto.
    - destruct s; exact Ha.
    - destruct s; exact Hs. }
  rewrite E. destruct r as [[]|e].
  - exists d', f', (mkMessage ("Task updated for " +:+ tradeName +:+ "!") Info).
    split; [destruct s; reflexivity|]. split; [destruct s; exact Hw|].
    intros Ha stored Hs. destruct (Hacc Ha stored Hs) as (_ & -> & ->). auto.
  - exists d', f', (mkMessage ("Error updating task: " +:+ message e) Err).
    split; [destruct s; reflexivity|]. split; [destruct s; exact Hw|].
    intros Ha stored Hs. destruct (Hacc Ha stored Hs) as (Hr & _). discriminate.
Qed.

(** A trade that is not in [unitData.trades], or an index past the end of
    its task array, makes [handleTaskToggle] throw before the [try] block. *)
Lemma handleTaskToggle_invalid_throws s u tradeName taskIndex :
  db s = true → unitData s = Some u →
  (trades u !! tradeName = None ∨
   ∃ tasks, trades u !! tradeName = Some tasks ∧ length tasks ≤ taskIndex) →
  ∃ msg, handleTaskToggle tradeName taskIndex s = (Thrown (TypeError msg), s).
Proof.
  intros Hd Hu Hbad. unfold handleTaskToggle.
  unfold mbind at 1, M_bind at 1, get_state at 1. cbv beta iota.
  rewrite Hu, Hd. cbn [negb].
  destruct Hbad as [Hn|(tasks & Ht & Hlen)].
  - rewrite Hn. eexists. reflexivity.
  - rewrite Ht. unfold mbind at 1, M_bind at 1. cbn [spread mret M_ret].
    unfold task_at. rewrite (lookup_ge_None_2 _ _ Hlen).
    eexists. reflexivity.
Qed.

Lemma task_clicks_valid s tradeName taskIndex :
  (tradeName, taskIndex) ∈ task_clicks s →
  tradeName = selectedTrade s ∧
  ∃ u tasks t, unitData s = Some u ∧ trades u !! tradeName = Some tasks ∧
               tasks !! taskIndex = Some t.
Proof.
  unfold task_clicks, currentTasks. intros Hin.
  destruct (unitData s) as [u|] eqn:Hu; [|inversion Hin].
  destruct (String.eqb (selectedTrade s) EmptyString); [inversion Hin|].
  apply list_elem_of_lookup in Hin as [i Hi].
  rewrite list_lookup_imap in Hi.
  destruct (tasks_or_empty (trades u !! selectedTrade s) !! i) as [t|] eqn:Et; [|discriminate].
  cbn in Hi. inversion Hi; subst. split; [reflexivity|].
  destruct (trades u !! selectedTrade s) as [tasks|] eqn:Etr.
  - exists u, tasks, t. auto.
  - cbn in Et. rewrite lookup_nil in Et. discriminate.
Qed.

(** C2, as the code has it.  For every call the rendered task list can
    make, [handleTaskToggle] returns: no exception escapes.  With the store
    handle set:
    - when the document of the unit is gone at write time, or the store
      rejects the write, the failure is reported ("Error updating task:
      ...") and the store is unchanged;
    - when the document is there and the write is accepted, the handler
      reports success and the stored [trades] are replaced by the map of
      the view with the task toggled, whatever the stored [trades] were: a
      trade or an index that is no longer in the stored document is not
      looked for. *)
Theorem toggle_at_write_time s tradeName taskIndex :
  (tradeName, taskIndex) ∈ task_clicks s →
  let run := handleTaskToggle tradeName taskIndex s in
  fst run = Returned tt ∧
  (db s = true →
     (docs s !! unitId s = None ∨ next_accepted s = false →
        docs (snd run) = docs s ∧
        ∃ why, messages (snd run) =
                 messages s ++ [mkMessage ("Error updating task: " +:+ why) Err]) ∧
     (∀ stored, docs s !! unitId s = Some stored → next_accepted s = true →
        ∃ u tasks t,
          unitData s = Some u ∧ trades u !! tradeName = Some tasks ∧
          tasks !! taskIndex = Some t ∧
          messages (snd run) =
            messages s ++ [mkMessage ("Task updated for " +:+ tradeName +:+ "!") Info] ∧
          getUnit (snd run) (unitId s) =
            Some (with_trades (toggle_in tradeName taskIndex tasks t (trades u)) stored))).
Proof.
  intros Hin run.
  destruct (task_clicks_valid s tradeName taskIndex Hin) as (_ & u & tasks & t & Hu & Ht & Hi).
  split.
  { subst run. destruct (db s) eqn:Hd.
    - destruct (handleTaskToggle_effect s u tradeName taskIndex tasks t Hd Hu Ht Hi)
        as (d' & f' & msg & E & _ & _).
      rewrite E. reflexivity.
    - unfold handleTaskToggle. unfold_monad. rewrite Hu, Hd. reflexivity. }
  intros Hd. split.
  - intros Hbad. subst run.
    rewrite (handleTaskToggle_valid s u tradeName taskIndex tasks t Hd Hu Ht Hi). cbv zeta.
    unfold updateDoc, next_accepted in *. unfold_monad.
    destruct s as [d uid un ud st ig dcs fts reqs msgs]; simpl_state.
    destruct fts as [|[m|] rest]; simpl_state;
      [destruct Hbad as [Hgone|Hrej]; [|discriminate] | |
       destruct Hbad as [Hgone|Hrej]; [|discriminate]];
      rewrite ?Hgone; simpl_state; eauto.
  - intros stored Hs Ha. exists u, tasks, t.
    destruct (handleTaskToggle_effect s u tradeName taskIndex tasks t Hd Hu Ht Hi)
      as (d' & f' & msg & E & _ & A).
    destruct (A Ha stored Hs) as (-> & -> & ->).
    split; [exact Hu|]. split; [exact Ht|]. split; [exact Hi|].
    subst run. rewrite E. unfold getUnit.
    destruct s; simpl_state. split; [reflexivity|apply lookup_insert_eq].
Qed.

Lemma toggle_at_write_time_witness :
  ("Electrical", 0) ∈ task_clicks view_A1 ∧
  fst (handleTaskToggle "Electrical" 0 view_A1) = Returned tt.
Proof.
  assert (Hin : ("Electrical", 0) ∈ task_clicks view_A1).
  { apply list_elem_of_lookup. exists 0. reflexivity. }
  split; [exact Hin|].
  apply (toggle_at_write_time view_A1 "Electrical" 0 Hin).
Defined.

(** C2 fails as stated: the view lists three Electrical tasks and the store
    holds the unit with two (it was added again from another session), so
    index 2 is out of range in the stored list when the third task is
    clicked.  The handler returns, reports "Task updated for Electrical!"
    and no error, and the stored list becomes the three tasks of the view
    with the third completed. *)
Lemma toggle_stale_index_not_reported :
  let run := handleTaskToggle "Electrical" 2 view_stale in
  ("Electrical", 2) ∈ task_clicks view_stale ∧
  (getUnit view_stale "A-1" ≫= λ d, trades d !! "Electrical") =
    Some [mkTask (VStr "Rough-in wiring") false; mkTask (VStr "Fixture installation") false] ∧
  fst run = Returned tt ∧
  messages (snd run) = messages view_stale ++ [mkMessage "Task updated for Electrical!" Info] ∧
  Forall (λ m, type m = Info) (messages (snd run)) ∧
  (getUnit (snd run) "A-1" ≫= λ d, trades d !! "Electrical") =
    Some [mkTask (VStr "Rough-in wiring") false; mkTask (VStr "Fixture installation") false;
          mkTask (VStr "Install panel") true].
Proof.
  cbv zeta. split.
  { apply list_elem_of_lookup. exists 2. reflexivity. }
  split; [reflexivity|]. split; [reflexivity|]. split; [reflexivity|].
  split; [vm_compute; repeat constructor|reflexivity].
Qed.

(** The handler outside the rendered calls: on the unit A-1, toggling a task
    of the trade "Roofing", which is not in [unitData.trades], or the task
    at index 2 of "Electrical", past the end of the task array, throws a
    [TypeError] outside the [try] block.  The task list offers neither
    call. *)
Example handleTaskToggle_stale_throws :
  (∃ msg, handleTaskToggle "Roofing" 0 view_A1 = (Thrown (TypeError msg), view_A1)) ∧
  (∃ msg, handleTaskToggle "Electrical" 2 view_A1 = (Thrown (TypeError msg), view_A1)) ∧
  messages view_A1 = [] ∧ requests view_A1 = [].
Proof.
  split; [|split; [|split; reflexivity]].
  - apply (handleTaskToggle_invalid_throws view_A1 unit_A1); [reflexivity|reflexivity|].
    left. reflexivity.
  - apply (handleTaskToggle_invalid_throws view_A1 unit_A1); [reflexivity|reflexivity|].
    right. eexists. split; [reflexivity|]. simpl. lia.
Qed.

(** X9. When the unit's document is gone at write time, the toggle is
    reported through the [catch] block: the handler returns, the store is
    unchanged and "Error updating task: ..." is shown. *)
Lemma handleTaskToggle_unit_gone_reported s u tradeName taskIndex tasks t :
  db s = true → unitData s = Some u →
  trades u !! tradeName = Some tasks → tasks !! taskIndex = Some t →
  docs s !! unitId s = None →
  let run := handleTaskToggle tradeName taskIndex s in
  fst run = Returned tt ∧ docs (snd run) = docs s ∧
  ∃ why, messages (snd run) = messages s ++ [mkMessage ("Error updating task: " +:+ why) Err].
Proof.
  intros Hd Hu Ht Hi Hgone run. subst run.
  rewrite (handleTaskToggle_valid s u tradeName taskIndex tasks t Hd Hu Ht Hi). cbv zeta.
  unfold updateDoc. unfold_monad.
  destruct s as [d uid un ud st ig dcs fts reqs msgs]; simpl_state.
  destruct fts as [|[m|] rest]; simpl_state; rewrite ?Hgone; simpl_state; eauto.
Qed.

Example toggle_unit_deleted_is_reported :
  let run := handleTaskToggle "Electrical" 0 (set_docs ∅ view_A1) in
  fst run = Returned tt ∧
  messages (snd run) = [mkMessage "Error updating task: No document to update: A-1" Err].
Proof. vm_compute. auto. Qed.

(** C5. Toggling the same task twice in succession restores it: both calls
    return, the first one flips the task's [completed], the second one
    writes the original [trades] map and leaves [unitData] as it was before
    the first; when the store accepts both writes the stored document has
    the original [trades] again, and the whole store is as before when the
    view was in sync with it. *)
Theorem double_toggle_restores s u tradeName taskIndex tasks t :
  db s = true → unitData s = Some u →
  trades u !! tradeName = Some tasks → tasks !! taskIndex = Some t →
  let run1 := handleTaskToggle tradeName taskIndex s in
  let run2 := handleTaskToggle tradeName taskIndex (snd run1) in
  fst run1 = Returned tt ∧ fst run2 = Returned tt ∧
  (∃ tasks1 t1, (unitData (snd run1) ≫= λ u1, trades u1 !! tradeName) = Some tasks1 ∧
     tasks1 !! taskIndex = Some t1 ∧ completed t1 = negb (completed t)) ∧
  unitData (snd run2) = Some u ∧
  last (requests (snd run2)) = Some (UpdateDoc (unitId s) (trades u)) ∧
  (∀ stored, docs s !! unitId s = Some stored →
     Forall (λ f, f = None) (take 2 (faults s)) →
     docs (snd run2) = <[unitId s := with_trades (trades u) stored]> (docs s)) ∧
  (docs s !! unitId s = Some u →
     Forall (λ f, f = None) (take 2 (faults s)) →
     docs (snd run2) = docs s).
Proof.
  intros Hd Hu Ht Hi run1 run2.
  set (written := toggle_in tradeName taskIndex tasks t (trades u)).
  destruct (handleTaskToggle_effect s u tradeName taskIndex tasks t Hd Hu Ht Hi)
    as (d1 & f1 & m1 & E1 & W1 & A1). fold written in E1, W1, A1.
  assert (Hi_lt : taskIndex < length tasks) by (eapply lookup_lt_Some; exact Hi).
  assert (Ht1 : trades (with_trades written u) !! tradeName = Some (<[taskIndex := toggled t]> tasks)).
  { simpl. unfold written, toggle_in. apply lookup_insert_eq. }
  assert (Hi1 : <[taskIndex := toggled t]> tasks !! taskIndex = Some (toggled t)).
  { apply list_lookup_insert_eq. exact Hi_lt. }
  assert (Hback : toggle_in tradeName taskIndex (<[taskIndex := toggled t]> tasks) (toggled t)
                    (trades (with_trades written u)) = trades u).
  { simpl. unfold written. apply toggle_in_twice; assumption. }
  assert (Hs1 : db (snd run1) = true ∧ unitData (snd run1) = Some (with_trades written u) ∧
                unitId (snd run1) = unitId s ∧ docs (snd run1) = d1 ∧ faults (snd run1) = f1).
  { subst run1. rewrite E1. destruct s; simpl_state. simpl in Hd. auto. }
  destruct Hs1 as (Hd1 & Hu1 & Hid1 & Hdocs1 & Hf1).
  destruct (handleTaskToggle_effect (snd run1) (with_trades written u) tradeName taskIndex
              (<[taskIndex := toggled t]> tasks) (toggled t) Hd1 Hu1 Ht1 Hi1)
    as (d2 & f2 & m2 & E2 & W2 & A2).
  rewrite Hback, Hid1 in E2, W2, A2. rewrite with_trades_back in E2.
  split; [subst run1; rewrite E1; reflexivity|].
  split; [subst run2; rewrite E2; reflexivity|].
  split.
  { exists (<[taskIndex := toggled t]> tasks), (toggled t). rewrite Hu1. simpl.
    split; [exact Ht1|]. split; [exact Hi1|reflexivity]. }
  split; [subst run2; rewrite E2; destruct (snd run1); reflexivity|].
  split.
  { subst run2. rewrite E2. destruct (snd run1); simpl_state. apply last_snoc. }
  assert (Hstore : ∀ stored, docs s !! unitId s = Some stored →
     Forall (λ f, f = None) (take 2 (faults s)) →
     docs (snd run2) = <[unitId s := with_trades (trades u) stored]> (docs s)).
  { intros stored Hs Hf.
    assert (Ha1 : next_accepted s = true).
    { unfold next_accepted. destruct (faults s) as [|[m|] fs]; try reflexivity.
      inversion Hf; discriminate. }
    destruct (A1 Ha1 stored Hs) as (Ed1 & Ef1 & _).
    assert (Ha2 : next_accepted (snd run1) = true).
    { unfold next_accepted. rewrite Hf1, Ef1.
      destruct (faults s) as [|f0 [|[m|] fs]]; try reflexivity.
      simpl in Hf. inversion Hf as [|? ? _ Hf']. inversion Hf'; discriminate. }
    assert (Hs2 : docs (snd run1) !! unitId s = Some (with_trades written stored)).
    { rewrite Hdocs1, Ed1. apply lookup_insert_eq. }
    destruct (A2 Ha2 _ Hs2) as (Ed2 & _ & _).
    subst run2. rewrite E2. destruct (snd run1); simpl_state.
    rewrite Ed2. simpl in Hdocs1. rewrite Hdocs1, Ed1. rewrite insert_insert_eq.
    destruct stored; reflexivity. }
  split; [exact Hstore|].
  intros Hs Hf. rewrite (Hstore u Hs Hf).
  replace (with_trades (trades u) u) with u by (destruct u; reflexivity).
  apply insert_id. exact Hs.
Qed.

Lemma double_toggle_restores_witness :
  db view_A1 = true ∧ unitData view_A1 = Some unit_A1 ∧
  trades unit_A1 !! "Electrical" =
    Some [mkTask (VStr "Rough-in wiring") false; mkTask (VStr "Fixture installation") false] ∧
  docs (snd (handleTaskToggle "Electrical" 0 (snd (handleTaskToggle "Electrical" 0 view_A1))))
    = docs view_A1.
Proof.
  split; [reflexivity|]. split; [reflexivity|]. split; [reflexivity|].
  apply (double_toggle_restores view_A1 unit_A1 "Electrical" 0
           [mkTask (VStr "Rough-in wiring") false; mkTask (VStr "Fixture installation") false]
           (mkTask (VStr "Rough-in wiring") false));
    try reflexivity.
  vm_compute. constructor.
Defined.

(** X10. After an accepted toggle on a view in sync with the store, with a
    trade selected (the task list is rendered only then), the snapshot the
    store pushes delivers the unit the handler already holds: the callback
    of the view, whatever the order of the trades' keys, leaves the state as
    it is and returns [loading = false]. *)
Lemma snapshot_after_toggle Object_keys s u tradeName taskIndex tasks t :
  db s = true → unitData s = Some u →
  trades u !! tradeName = Some tasks → tasks !! taskIndex = Some t →
  docs s !! unitId s = Some u → next_accepted s = true →
  selectedTrade s ≠ EmptyString →
  let run := handleTaskToggle tradeName taskIndex s in
  getUnit (snd run) (unitId (snd run)) = unitData (snd run) ∧
  unitSnapshot Object_keys (snd run) = (Returned false, snd run).
Proof.
  intros Hd Hu Ht Hi Hs Ha Hsel run.
  destruct (handleTaskToggle_effect s u tradeName taskIndex tasks t Hd Hu Ht Hi)
    as (d' & f' & msg & E & _ & A).
  destruct (A Ha u Hs) as (-> & -> & ->).
  apply String.eqb_neq in Hsel.
  subst run. rewrite E. unfold unitSnapshot, getUnit. unfold_monad.
  destruct s as [d uid un ud st ig dcs fts reqs msgs]; simpl_state.
  rewrite lookup_insert_eq. simpl in Hsel. rewrite Hsel. split; reflexivity.
Qed.

(** ** Adding a task *)

Lemma handleAddTask_effect s u newTaskName :
  db s = true → unitData s = Some u → selectedTrade s ≠ EmptyString → newTaskName ≠ EmptyString →
  let written := append_in (selectedTrade s) [mkTask (VStr newTaskName) false] (trades u) in
  ∃ d' f' msg,
    handleAddTask (Some newTaskName) s =
      (Returned tt,
       set_messages (messages s ++ [msg])
         (set_docs d'
            (set_faults f'
               (set_requests (requests s ++ [UpdateDoc (unitId s) written]) s)))) ∧
    only_trades_written (unitId s) written (docs s) d' ∧
    (next_accepted s = true → ∀ stored, docs s !! unitId s = Some stored →
       d' = <[unitId s := with_trades written stored]> (docs s) ∧ f' = tail (faults s) ∧
       msg = mkMessage ("Task " +:+ quoted newTaskName +:+ " added to " +:+ selectedTrade s +:+ "!") Info).
Proof.
  intros Hd Hu Hsel Hnew written.
  destruct (updateDoc_runs (unitId s) written s) as (r & d' & f' & E & Hw).
  assert (Hacc : next_accepted s = true → ∀ stored, docs s !! unitId s = Some stored →
            r = Returned tt ∧ d' = <[unitId s := with_trades written stored]> (docs s) ∧
            f' = tail (faults s)).
  { intros Ha stored Hs. rewrite (updateDoc_accepted _ _ _ stored Ha Hs) in E.
    destruct s; simpl_state. inversion E. auto. }
  assert (Hrun : handleAddTask (Some newTaskName) s =
    match updateDoc (unitId s) written s with
    | (Returned _, s2) =>
        (Returned tt,
         set_messages (messages s2 ++ [mkMessage ("Task " +:+ quoted newTaskName +:+ " added to "
                                                  +:+ selectedTrade s +:+ "!") Info]) s2)
    | (Thrown e, s2) =>
        (Returned tt,
         set_messages (messages s2 ++ [mkMessage ("Error adding task: " +:+ message e) Err]) s2)
    end).
  { unfold handleAddTask.
    unfold mbind at 1, M_bind at 1, get_state at 1. cbv beta iota.
    rewrite Hu, Hd. apply String.eqb_neq in Hsel, Hnew. rewrite Hsel, Hnew. cbn [negb orb].
    unfold try_catch. unfold mbind at 1, M_bind at 1. fold (append_in (selectedTrade s)
      [mkTask (VStr newTaskName) false] (trades u)). fold written.
    destruct (updateDoc _ _ _) as [[[]|e] s2]; reflexivity. }
  rewrite Hrun, E. destruct r as [[]|e].
  - eexists d', f', _. split; [destruct s; reflexivity|]. split; [exact Hw|].
    intros Ha stored Hs. destruct (Hacc Ha stored Hs) as (_ & -> & ->). auto.
  - eexists d', f', _. split; [destruct s; reflexivity|]. split; [exact Hw|].
    intros Ha stored Hs. destruct (Hacc Ha stored Hs) as (Hr & _). discriminate.
Qed.

Lemma append_in_frame tradeName new (trs : gmap string (list Task)) :
  let old := tasks_or_empty (trs !! tradeName) in
  append_in tradeName new trs !! tradeName = Some (old ++ new) ∧
  (∀ i t, old !! i = Some t → (old ++ new) !! i = Some t) ∧
  (∀ other, other ≠ tradeName → append_in tradeName new trs !! other = trs !! other).
Proof.
  intros old. unfold append_in. fold old. split; [apply lookup_insert_eq|]. split.
  - intros i t Hi. apply lookup_app_l_Some. exact Hi.
  - intros other Ho. apply lookup_insert_ne. congruence.
Qed.

(** C8. [handleAddTask] with a non-empty text sends one update whose [trades]
    map has, under the selected trade, the old task array (empty when the
    trade was absent) followed by the single entry
    [{ task: text, completed: false }]: the length grows by one, the old
    tasks keep their positions, the other trades are as before; the map is
    written to the store when the write is accepted. *)
Theorem addTask_appends_one s u newTaskName :
  db s = true → unitData s = Some u → selectedTrade s ≠ EmptyString → newTaskName ≠ EmptyString →
  let run := handleAddTask (Some newTaskName) s in
  let old := tasks_or_empty (trades u !! selectedTrade s) in
  let entry := mkTask (VStr newTaskName) false in
  let written := <[selectedTrade s := old ++ [entry]]> (trades u) in
  fst run = Returned tt ∧
  requests (snd run) = requests s ++ [UpdateDoc (unitId s) written] ∧
  written !! selectedTrade s = Some (old ++ [entry]) ∧
  length (old ++ [entry]) = S (length old) ∧
  (∀ i t, old !! i = Some t → (old ++ [entry]) !! i = Some t) ∧
  (old ++ [entry]) !! length old = Some entry ∧
  (∀ other, other ≠ selectedTrade s → written !! other = trades u !! other) ∧
  (trades u !! selectedTrade s = None → old = []) ∧
  (next_accepted s = true → ∀ stored, docs s !! unitId s = Some stored →
     docs (snd run) = <[unitId s := with_trades written stored]> (docs s)) ∧
  unitData (snd run) = unitData s.
Proof.
  intros Hd Hu Hsel Hnew run old entry written.
  destruct (handleAddTask_effect s u newTaskName Hd Hu Hsel Hnew)
    as (d' & f' & msg & E & W & A).
  change (append_in (selectedTrade s) [mkTask (VStr newTaskName) false] (trades u))
    with written in E, W, A.
  destruct (append_in_frame (selectedTrade s) [entry] (trades u)) as (F1 & F2 & F3).
  subst run. rewrite E.
  split; [reflexivity|]. split; [destruct s; reflexivity|].
  split; [exact F1|]. split; [rewrite length_app; simpl; lia|].
  split; [exact F2|]. split; [apply list_lookup_middle; reflexivity|].
  split; [exact F3|]. split; [intros Hn; subst old; rewrite Hn; reflexivity|].
  split; [|destruct s; reflexivity].
  intros Ha stored Hs. destruct (A Ha stored Hs) as (-> & _ & _). destruct s; reflexivity.
Qed.

Lemma addTask_appends_one_witness :
  db view_A1 = true ∧ unitData view_A1 = Some unit_A1 ∧
  selectedTrade view_A1 ≠ EmptyString ∧ "Install panel" ≠ EmptyString ∧
  requests (snd (handleAddTask (Some "Install panel") view_A1)) =
    [UpdateDoc "A-1"
       (<["Electrical" := [mkTask (VStr "Rough-in wiring") false;
                           mkTask (VStr "Fixture installation") false;
                           mkTask (VStr "Install panel") false]]> defaultTrades)].
Proof.
  split; [reflexivity|]. split; [reflexivity|].
  split; [discriminate|]. split; [discriminate|].
  apply (addTask_appends_one view_A1 unit_A1 "Install panel"); try reflexivity; discriminate.
Defined.

(** Adding "Install panel" to Electrical on "A-1". *)
Example addTask_scenario_A1 :
  let run := handleAddTask (Some "Install panel") view_A1 in
  (getUnit (snd run) "A-1" ≫= λ u, trades u !! "Electrical") =
    Some [mkTask (VStr "Rough-in wiring") false; mkTask (VStr "Fixture installation") false;
          mkTask (VStr "Install panel") false].
Proof. vm_compute. reflexivity. Qed.

(** ** Suggested tasks *)

Lemma appendSuggestedTasks_nothing_new s u suggestedTasks :
  unitData s = Some u →
  newTasksToAdd (tasks_or_empty (trades u !! selectedTrade s)) suggestedTasks = [] →
  appendSuggestedTasks suggestedTasks s =
    (Returned tt,
     set_messages (messages s ++ [mkMessage "No new unique tasks were suggested." Info]) s).
Proof.
  intros Hu Hn. unfold appendSuggestedTasks.
  unfold mbind at 1, M_bind at 1, get_state at 1. cbv beta iota.
  rewrite Hu, Hn. reflexivity.
Qed.

Lemma appendSuggestedTasks_effect s u suggestedTasks :
  unitData s = Some u →
  let new := newTasksToAdd (tasks_or_empty (trades u !! selectedTrade s)) suggestedTasks in
  let written := append_in (selectedTrade s) new (trades u) in
  new ≠ [] →
  ∃ r d' f' msgs,
    appendSuggestedTasks suggestedTasks s =
      (r,
       set_messages (messages s ++ msgs)
         (set_docs d'
            (set_faults f'
               (set_requests (requests s ++ [UpdateDoc (unitId s) written]) s)))) ∧
    only_trades_written (unitId s) written (docs s) d' ∧
    ((r = Returned tt ∧
      msgs = [mkMessage ("Suggested tasks added for " +:+ selectedTrade s +:+ "!") Info]) ∨
     (∃ e, r = Thrown e ∧ msgs = [] ∧ d' = docs s)) ∧
    (next_accepted s = true → ∀ stored, docs s !! unitId s = Some stored →
       r = Returned tt ∧ d' = <[unitId s := with_trades written stored]> (docs s) ∧
       f' = tail (faults s)).
Proof.
  intros Hu new written Hne.
  destruct (updateDoc_runs (unitId s) written s) as (r & d' & f' & E & Hw).
  assert (Hacc : next_accepted s = true → ∀ stored, docs s !! unitId s = Some stored →
            r = Returned tt ∧ d' = <[unitId s := with_trades written stored]> (docs s) ∧
            f' = tail (faults s)).
  { intros Ha stored Hs. rewrite (updateDoc_accepted _ _ _ stored Ha Hs) in E.
    destruct s; simpl_state. inversion E. auto. }
  assert (Hthrown : ∀ e, r = Thrown e → d' = docs s).
  { intros e ->. revert E. unfold updateDoc. unfold_monad.
    destruct s as [d uid un ud st ig dcs fts reqs msgs]; simpl_state.
    destruct fts as [|[m|] rest]; simpl_state;
      try destruct (dcs !! un) as [stored|]; simpl_state; intros E; inversion E; reflexivity. }
  assert (Hrun : appendSuggestedTasks suggestedTasks s =
    match updateDoc (unitId s) written s with
    | (Returned _, s2) =>
        (Returned tt,
         set_messages (messages s2 ++ [mkMessage ("Suggested tasks added for "
                                                  +:+ selectedTrade s +:+ "!") Info]) s2)
    | (Thrown e, s2) => (Thrown e, s2)
    end).
  { unfold appendSuggestedTasks.
    unfold mbind at 1, M_bind at 1, get_state at 1. cbv beta iota.
    rewrite Hu. fold new.
    destruct new as [|n0 new'] eqn:En; [congruence|]. cbn [length Nat.ltb Nat.leb].
    unfold mbind at 1, M_bind at 1.
    fold (append_in (selectedTrade s) (n0 :: new') (trades u)).
    replace (append_in (selectedTrade s) (n0 :: new') (trades u)) with written
      by (subst written; reflexivity).
    destruct (updateDoc _ _ _) as [[[]|e] s2]; reflexivity. }
  rewrite Hrun, E. destruct r as [[]|e].
  - eexists _, d', f', _. split; [destruct s; reflexivity|]. split; [exact Hw|].
    split; [left; auto|exact Hacc].
  - exists (Thrown e), d', f', []. split.
    + destruct s; simpl_state. rewrite app_nil_r. reflexivity.
    + split; [exact Hw|]. split; [|exact Hacc]. right. exists e. eauto.
Qed.

Lemma already_there_spec existingTasks suggestedTask :
  already_there existingTasks suggestedTask = true ↔
  ∃ t, t ∈ existingTasks ∧ strict_eq (task t) suggestedTask = true.
Proof.
  unfold already_there. rewrite existsb_exists. split.
  - intros (t & Hin & Ht). exists t. split; [apply list_elem_of_In; exact Hin|exact Ht].
  - intros (t & Hin & Ht). exists t. split; [apply list_elem_of_In; exact Hin|exact Ht].
Qed.

(** The tasks to add: the suggestions without a match, in order, incomplete. *)
Lemma newTasksToAdd_spec existingTasks suggestedTasks :
  let new := newTasksToAdd existingTasks suggestedTasks in
  (∀ x, x ∈ task <$> new ↔
        x ∈ suggestedTasks ∧ ∀ t, t ∈ existingTasks → strict_eq (task t) x = false) ∧
  Forall (λ t, completed t = false) new ∧
  task <$> new `sublist_of` suggestedTasks.
Proof.
  unfold newTasksToAdd. cbv zeta.
  induction suggestedTasks as [|sg rest (IH1 & IH2 & IH3)]; cbn [List.filter map].
  - split; [|split; [constructor|constructor]].
    intros x. split; [intros Hx; inversion Hx|intros [Hx _]; inversion Hx].
  - assert (Hdec : ∀ x, already_there existingTasks x = false ↔
                     ∀ t, t ∈ existingTasks → strict_eq (task t) x = false).
    { intros x. split.
      - intros Hf t Ht. destruct (strict_eq (task t) x) eqn:E; [|reflexivity].
        assert (already_there existingTasks x = true) by (apply already_there_spec; eauto).
        congruence.
      - intros Hall. destruct (already_there existingTasks x) eqn:E; [|reflexivity].
        apply already_there_spec in E as (t & Ht & Et). rewrite (Hall t Ht) in Et. discriminate. }
    destruct (already_there existingTasks sg) eqn:E; cbn [negb map].
    + split; [|split; [exact IH2|apply sublist_cons; exact IH3]].
      intros x. rewrite IH1. split.
      * intros [Hx Hn]. split; [right; exact Hx|exact Hn].
      * intros [Hx Hn]. split; [|exact Hn].
        apply elem_of_cons in Hx as [->|Hx]; [|exact Hx].
        apply Hdec in Hn. congruence.
    + split; [|split; [constructor; [reflexivity|exact IH2]|apply sublist_skip; exact IH3]].
      intros x. cbn [fmap list_fmap]. rewrite elem_of_cons, IH1. split.
      * intros [->|[Hx Hn]]; [split; [left|apply Hdec; exact E]|split; [right; exact Hx|exact Hn]].
      * intros [Hx Hn]. apply elem_of_cons in Hx as [->|Hx]; [left; reflexivity|right; auto].
Qed.

(** C6. The suggestions are filtered by [===] against the [task] of each
    existing task of the selected trade, which on strings is equality of
    the two texts.  The tasks to add are the suggestions with no match, in
    order, as incomplete tasks.  When every suggestion has a match the store
    receives no request, nothing changes and the message "No new unique
    tasks were suggested." is shown as information; otherwise one update
    appends the tasks to add to the selected trade. *)
Theorem appendSuggestedTasks_filters s u suggestedTasks :
  unitData s = Some u →
  let existing := tasks_or_empty (trades u !! selectedTrade s) in
  let new := newTasksToAdd existing suggestedTasks in
  let run := appendSuggestedTasks suggestedTasks s in
  (∀ a b, strict_eq (VStr a) (VStr b) = true ↔ a = b) ∧
  ((∀ x, x ∈ task <$> new ↔
         x ∈ suggestedTasks ∧ ∀ t, t ∈ existing → strict_eq (task t) x = false) ∧
   Forall (λ t, completed t = false) new ∧
   task <$> new `sublist_of` suggestedTasks) ∧
  (Forall (λ x, ∃ t, t ∈ existing ∧ strict_eq (task t) x = true) suggestedTasks →
     run = (Returned tt,
            set_messages (messages s ++ [mkMessage "No new unique tasks were suggested." Info]) s) ∧
     requests (snd run) = requests s ∧ docs (snd run) = docs s ∧
     unitData (snd run) = unitData s) ∧
  (¬ Forall (λ x, ∃ t, t ∈ existing ∧ strict_eq (task t) x = true) suggestedTasks →
     new ≠ [] ∧
     requests (snd run) =
       requests s ++ [UpdateDoc (unitId s) (<[selectedTrade s := existing ++ new]> (trades u))] ∧
     (next_accepted s = true → ∀ stored, docs s !! unitId s = Some stored →
        fst run = Returned tt ∧
        docs (snd run) =
          <[unitId s := with_trades (<[selectedTrade s := existing ++ new]> (trades u)) stored]>
            (docs s) ∧
        messages (snd run) =
          messages s ++ [mkMessage ("Suggested tasks added for " +:+ selectedTrade s +:+ "!") Info])).
Proof.
  intros Hu existing new run.
  destruct (newTasksToAdd_spec existing suggestedTasks) as (N1 & N2 & N3). fold new in N1, N2, N3.
  assert (Hempty : new = [] ↔
            Forall (λ x, ∃ t, t ∈ existing ∧ strict_eq (task t) x = true) suggestedTasks).
  { split.
    - intros Hn. apply Forall_forall. intros x Hx.
      destruct (already_there existing x) eqn:E; [apply already_there_spec; exact E|].
      exfalso. assert (Hin : x ∈ task <$> new).
      { apply N1. split; [exact Hx|]. intros t Ht.
        destruct (strict_eq (task t) x) eqn:Et; [|reflexivity].
        assert (already_there existing x = true) by (apply already_there_spec; eauto).
        congruence. }
      rewrite Hn in Hin. inversion Hin.
    - intros Hall. destruct new as [|n0 new'] eqn:En; [reflexivity|]. exfalso.
      assert (Hin : task n0 ∈ task <$> (n0 :: new')) by left.
      apply N1 in Hin as [Hx Hn]. rewrite Forall_forall in Hall.
      destruct (Hall _ Hx) as (t & Ht & Et). rewrite (Hn t Ht) in Et. discriminate. }
  split.
  { intros a b. simpl. apply String.eqb_eq. }
  split; [auto|]. split.
  - intros Hall. apply Hempty in Hall. subst run.
    rewrite (appendSuggestedTasks_nothing_new s u suggestedTasks Hu Hall).
    split; [reflexivity|]. destruct s; simpl_state. auto.
  - intros Hnot. assert (Hne : new ≠ []) by (intros Hn; apply Hnot, Hempty, Hn).
    split; [exact Hne|].
    destruct (appendSuggestedTasks_effect s u suggestedTasks Hu Hne)
      as (r & d' & f' & msgs & E & W & Hr & A).
    fold existing in E, W, A. fold new in E, W, A.
    unfold append_in in E, W, A. fold existing in E, W, A.
    subst run. rewrite E. split; [destruct s; reflexivity|].
    intros Ha stored Hs. destruct (A Ha stored Hs) as (-> & -> & ->).
    destruct Hr as [[_ ->]|(e & He & _)]; [|discriminate].
    destruct s; simpl_state. auto.
Qed.

Lemma appendSuggestedTasks_filters_witness :
  unitData view_A1 = Some unit_A1 ∧
  requests (snd (appendSuggestedTasks [VStr "Rough-in wiring"; VStr "Install conduit"] view_A1)) =
    [UpdateDoc "A-1"
       (<["Electrical" := [mkTask (VStr "Rough-in wiring") false;
                           mkTask (VStr "Fixture installation") false;
                           mkTask (VStr "Install conduit") false]]> defaultTrades)] ∧
  requests (snd (appendSuggestedTasks [VStr "Rough-in wiring"; VStr "Fixture installation"] view_A1)) = [].
Proof.
  split; [reflexivity|]. split.
  - destruct (appendSuggestedTasks_filters view_A1 unit_A1
                [VStr "Rough-in wiring"; VStr "Install conduit"] eq_refl)
      as (_ & _ & _ & Hsome).
    apply Hsome. intros Hall.
    apply Forall_cons in Hall as [_ Hall]. apply Forall_cons in Hall as [(t & Ht & E) _].
    vm_compute in Ht.
    apply elem_of_cons in Ht as [->|Ht]; [discriminate E|].
    apply elem_of_cons in Ht as [->|Ht]; [discriminate E|].
    inversion Ht.
  - destruct (appendSuggestedTasks_filters view_A1 unit_A1
                [VStr "Rough-in wiring"; VStr "Fixture installation"] eq_refl)
      as (_ & _ & Hnone & _).
    apply Hnone. repeat constructor.
    + exists (mkTask (VStr "Rough-in wiring") false). split; [|reflexivity].
      vm_compute. left.
    + exists (mkTask (VStr "Fixture installation") false). split; [|reflexivity].
      vm_compute. right. left.
Defined.

(** C10. Suggestions are compared with the existing tasks only: a suggestion
    that is not among them and comes twice in the batch is appended twice. *)
Theorem duplicate_suggestions_both_appended s u x :
  unitData s = Some u →
  let existing := tasks_or_empty (trades u !! selectedTrade s) in
  (∀ t, t ∈ existing → strict_eq (task t) x = false) →
  let run := appendSuggestedTasks [x; x] s in
  let written := <[selectedTrade s := existing ++ [mkTask x false; mkTask x false]]> (trades u) in
  newTasksToAdd existing [x; x] = [mkTask x false; mkTask x false] ∧
  requests (snd run) = requests s ++ [UpdateDoc (unitId s) written] ∧
  (next_accepted s = true → ∀ stored, docs s !! unitId s = Some stored →
     fst run = Returned tt ∧
     (docs (snd run) !! unitId s ≫= λ stored', trades stored' !! selectedTrade s) =
       Some (existing ++ [mkTask x false; mkTask x false])).
Proof.
  intros Hu existing Hfresh run written.
  assert (Hno : already_there existing x = false).
  { destruct (already_there existing x) eqn:E; [|reflexivity].
    apply already_there_spec in E as (t & Ht & Et). rewrite (Hfresh t Ht) in Et. discriminate. }
  assert (Hnew : newTasksToAdd existing [x; x] = [mkTask x false; mkTask x false]).
  { unfold newTasksToAdd. cbn [List.filter]. rewrite Hno. reflexivity. }
  split; [exact Hnew|].
  assert (Hne : newTasksToAdd (tasks_or_empty (trades u !! selectedTrade s)) [x; x] ≠ [])
    by (fold existing; rewrite Hnew; discriminate).
  destruct (appendSuggestedTasks_effect s u [x; x] Hu Hne)
    as (r & d' & f' & msgs & E & W & Hr & A).
  fold existing in E, W, A. rewrite Hnew in E, W, A. unfold append_in in E, W, A.
  fold existing in E, W, A. fold written in E, W, A.
  subst run. rewrite E. split; [destruct s; reflexivity|].
  intros Ha stored Hs. destruct (A Ha stored Hs) as (-> & -> & _).
  split; [reflexivity|]. destruct s; simpl_state.
  rewrite lookup_insert_eq. simpl. unfold written. simpl. apply lookup_insert_eq.
Qed.

Lemma duplicate_suggestions_both_appended_witness :
  unitData view_A1 = Some unit_A1 ∧
  requests (snd (appendSuggestedTasks [VStr "Install conduit"; VStr "Install conduit"] view_A1)) =
    [UpdateDoc "A-1"
       (<["Electrical" := [mkTask (VStr "Rough-in wiring") false;
                           mkTask (VStr "Fixture installation") false;
                           mkTask (VStr "Install conduit") false;
                           mkTask (VStr "Install conduit") false]]> defaultTrades)].
Proof.
  split; [reflexivity|].
  apply (duplicate_suggestions_both_appended view_A1 unit_A1 (VStr "Install conduit") eq_refl).
  intros t Ht. vm_compute in Ht.
  apply elem_of_cons in Ht as [->|Ht]; [reflexivity|].
  apply elem_of_cons in Ht as [->|Ht]; [reflexivity|].
  inversion Ht.
Defined.

Lemma handleSuggestTasks_guard_passed `{Engine} s u reply :
  db s = true → selectedTrade s ≠ EmptyString → unitData s = Some u →
  handleSuggestTasks reply s =
    let s1 := set_messages (messages s ++ [mkMessage ("Generating tasks for " +:+ selectedTrade s +:+ "...") Info])
                (set_isGeneratingTasks true s) in
    match suggest_from_reply reply s1 with
    | (Returned _, s2) => (Returned tt, set_isGeneratingTasks false s2)
    | (Thrown e, s2) =>
        (Returned tt,
         set_isGeneratingTasks false
           (set_messages (messages s2 ++ [mkMessage ("Error suggesting tasks: " +:+ message e) Err]) s2))
    end.
Proof.
  intros Hd Hsel Hu. unfold handleSuggestTasks.
  unfold mbind at 1, M_bind at 1, get_state at 1. cbv beta iota.
  apply String.eqb_neq in Hsel. rewrite Hd, Hsel, Hu.
  cbn [negb orb bool_decide]. rewrite bool_decide_eq_true_2 by (eexists; reflexivity).
  cbn [negb]. cbv zeta.
  unfold mbind at 1, M_bind at 1, modify at 1. cbv beta iota.
  unfold mbind at 1, M_bind at 1, showMessage at 1, modify at 1. cbv beta iota.
  unfold try_finally, try_catch.
  destruct s as [d uid un ud st ig dcs fts reqs msgs]; simpl_state.
  destruct (suggest_from_reply reply _) as [[[]|e] s2]; reflexivity.
Qed.

Lemma suggest_from_reply_rejects `{Engine} reply s :
  accepted_items reply = None →
  (∃ why, suggest_from_reply reply s =
            (Returned tt, set_messages (messages s ++ [mkMessage why Err]) s)) ∨
  (∃ e, suggest_from_reply reply s = (Thrown e, s)).
Proof.
  intros Hnone. destruct (suggest_from_reply reply s) as [r s'] eqn:E. revert E.
  unfold accepted_items in Hnone. unfold suggest_from_reply, lift. fold text_path.
  unfold mbind at 1, M_bind at 1.
  destruct reply as [result|e]; cbv beta iota;
    [|intros E; inversion E; right; eexists; reflexivity].
  unfold mbind at 1, M_bind at 1.
  destruct (shape_ok result) as [[|]|e]; cbv beta iota;
    [| intros E; inversion E; left; eexists; reflexivity
     | intros E; inversion E; right; eexists; reflexivity].
  unfold mbind at 1, M_bind at 1.
  destruct (path result text_path) as [jsonString|e]; cbv beta iota;
    [|intros E; inversion E; right; eexists; reflexivity].
  unfold mbind at 1, M_bind at 1.
  destruct (JSON_parse jsonString) as [suggestedTasks|e]; cbv beta iota;
    [|intros E; inversion E; right; eexists; reflexivity].
  destruct suggestedTasks as [| |b|n|str|items|fields];
    try (intros E; inversion E; left; eexists; reflexivity).
  destruct items as [|x items]; [|discriminate].
  intros E; inversion E; left; eexists; reflexivity.
Qed.

(** C7, as the code has it.  A reply that does not carry a non-empty array
    (the fetch or the decoding of the body threw, the path
    [candidates[0].content.parts[0].text] cannot be read, its text does not
    parse, or it parses to something that is not a non-empty array) is
    reported with an error message; the handler returns, sends no request,
    leaves the store and [unitData] unchanged and resets
    [isGeneratingTasks]. *)
Theorem suggest_failure_reported `{Engine} s u reply :
  db s = true → selectedTrade s ≠ EmptyString → unitData s = Some u →
  accepted_items reply = None →
  let run := handleSuggestTasks reply s in
  fst run = Returned tt ∧
  (∃ why, messages (snd run) =
     messages s ++ [mkMessage ("Generating tasks for " +:+ selectedTrade s +:+ "...") Info;
                    mkMessage why Err]) ∧
  requests (snd run) = requests s ∧ docs (snd run) = docs s ∧
  unitData (snd run) = unitData s ∧ isGeneratingTasks (snd run) = false.
Proof.
  intros Hd Hsel Hu Hnone run. subst run.
  rewrite (handleSuggestTasks_guard_passed s u reply Hd Hsel Hu). cbv zeta.
  destruct (suggest_from_reply_rejects reply
              (set_messages (messages s ++ [mkMessage ("Generating tasks for " +:+ selectedTrade s +:+ "...") Info])
                 (set_isGeneratingTasks true s)) Hnone) as [[why E]|[e E]];
    rewrite E; destruct s; simpl_state; rewrite <- app_assoc; eauto 10.
Qed.

Lemma suggest_failure_reported_witness :
  db view_A1 = true ∧ selectedTrade view_A1 ≠ EmptyString ∧
  unitData view_A1 = Some unit_A1 ∧
  @accepted_items sample_engine (Returned (VObj [("error", VStr "quota")])) = None ∧
  docs (snd (@handleSuggestTasks sample_engine (Returned (VObj [("error", VStr "quota")])) view_A1))
    = docs view_A1.
Proof.
  split; [reflexivity|]. split; [discriminate|]. split; [reflexivity|]. split; [reflexivity|].
  apply (@suggest_failure_reported sample_engine view_A1 unit_A1
           (Returned (VObj [("error", VStr "quota")]))); try reflexivity; discriminate.
Defined.

(** C7 fails as stated: the text "[1]" parses to an array that is not an
    array of strings; the handler reports success and appends the task
    [{ task: 1, completed: false }]. *)
Lemma suggest_accepts_non_strings :
  let reply := Returned (gemini_reply JSON_text_one) in
  let run := @handleSuggestTasks sample_engine reply view_A1 in
  @JSON_parse sample_engine (VStr JSON_text_one) = Returned (VArr [VNum 1]) ∧
  forallb is_string [VNum 1] = false ∧
  fst run = Returned tt ∧
  messages (snd run) =
    [mkMessage "Generating tasks for Electrical..." Info;
     mkMessage "Suggested tasks added for Electrical!" Info] ∧
  (getUnit (snd run) "A-1" ≫= λ u, trades u !! "Electrical") =
    Some [mkTask (VStr "Rough-in wiring") false; mkTask (VStr "Fixture installation") false;
          mkTask (VNum 1) false].
Proof. vm_compute. auto 10. Qed.

Lemma shape_ok_gemini_reply `{Engine} text : shape_ok (gemini_reply text) = Returned true.
Proof. reflexivity. Qed.

(** On a reply of the documented shape whose text parses to a non-empty
    array, [handleSuggestTasks] runs [appendSuggestedTasks] on its items. *)
Lemma handleSuggestTasks_accepted `{Engine} s u text items :
  db s = true → selectedTrade s ≠ EmptyString → unitData s = Some u →
  JSON_parse (VStr text) = Returned (VArr items) → items ≠ [] →
  handleSuggestTasks (Returned (gemini_reply text)) s =
    let s1 := set_messages (messages s ++ [mkMessage ("Generating tasks for " +:+ selectedTrade s +:+ "...") Info])
                (set_isGeneratingTasks true s) in
    match appendSuggestedTasks items s1 with
    | (Returned _, s2) => (Returned tt, set_isGeneratingTasks false s2)
    | (Thrown e, s2) =>
        (Returned tt,
         set_isGeneratingTasks false
           (set_messages (messages s2 ++ [mkMessage ("Error suggesting tasks: " +:+ message e) Err]) s2))
    end.
Proof.
  intros Hd Hsel Hu Hp Hne.
  rewrite (handleSuggestTasks_guard_passed s u _ Hd Hsel Hu). cbv zeta.
  unfold suggest_from_reply, lift. fold text_path.
  unfold mbind at 1, M_bind at 1. cbv beta iota.
  unfold mbind at 1, M_bind at 1. rewrite shape_ok_gemini_reply. cbv beta iota.
  unfold mbind at 1, M_bind at 1.
  change (path (gemini_reply text) text_path) with (Returned (VStr text)). cbv beta iota.
  unfold mbind at 1, M_bind at 1. rewrite Hp. cbv beta iota.
  destruct items as [|x items]; [congruence|]. reflexivity.
Qed.

(** The service suggests "Rough-in wiring" and "Install conduit" for
    Electrical on "A-1": only "Install conduit" is appended. *)
Example suggest_scenario_A1 :
  let reply := Returned (gemini_reply JSON_text_conduit) in
  let run := @handleSuggestTasks sample_engine reply view_A1 in
  fst run = Returned tt ∧
  (getUnit (snd run) "A-1" ≫= λ u, trades u !! "Electrical") =
    Some [mkTask (VStr "Rough-in wiring") false; mkTask (VStr "Fixture installation") false;
          mkTask (VStr "Install conduit") false] ∧
  isGeneratingTasks (snd run) = false.
Proof. vm_compute. auto. Qed.

(** ** What a task mutation leaves alone *)

(** C9. Each task mutation sends one update of the viewed unit, whose
    [trades] map agrees with [unitData.trades] on every other trade.  In the
    targeted trade, a toggle keeps the length, the other tasks and the text
    of the toggled task; adding a task and appending suggestions keep the
    old tasks at their positions.  In the store the other documents are
    unchanged, and the unit's document keeps its [address] and [status]. *)
Theorem task_mutations_frame s u :
  db s = true → unitData s = Some u →
  (∀ tradeName taskIndex tasks t,
     trades u !! tradeName = Some tasks → tasks !! taskIndex = Some t →
     let run := handleTaskToggle tradeName taskIndex s in
     ∃ written tasks' t',
       requests (snd run) = requests s ++ [UpdateDoc (unitId s) written] ∧
       only_trades_written (unitId s) written (docs s) (docs (snd run)) ∧
       (∀ other, other ≠ tradeName → written !! other = trades u !! other) ∧
       written !! tradeName = Some tasks' ∧ length tasks' = length tasks ∧
       (∀ j, j ≠ taskIndex → tasks' !! j = tasks !! j) ∧
       tasks' !! taskIndex = Some t' ∧ task t' = task t ∧
       completed t' = negb (completed t)) ∧
  (∀ newTaskName,
     selectedTrade s ≠ EmptyString → newTaskName ≠ EmptyString →
     let run := handleAddTask (Some newTaskName) s in
     let old := tasks_or_empty (trades u !! selectedTrade s) in
     ∃ written tasks',
       requests (snd run) = requests s ++ [UpdateDoc (unitId s) written] ∧
       only_trades_written (unitId s) written (docs s) (docs (snd run)) ∧
       (∀ other, other ≠ selectedTrade s → written !! other = trades u !! other) ∧
       written !! selectedTrade s = Some tasks' ∧
       (∀ j x, old !! j = Some x → tasks' !! j = Some x) ∧
       unitData (snd run) = unitData s) ∧
  (∀ suggestedTasks,
     let run := appendSuggestedTasks suggestedTasks s in
     let old := tasks_or_empty (trades u !! selectedTrade s) in
     (requests (snd run) = requests s ∧ docs (snd run) = docs s ∧
      unitData (snd run) = unitData s) ∨
     ∃ written tasks',
       requests (snd run) = requests s ++ [UpdateDoc (unitId s) written] ∧
       only_trades_written (unitId s) written (docs s) (docs (snd run)) ∧
       (∀ other, other ≠ selectedTrade s → written !! other = trades u !! other) ∧
       written !! selectedTrade s = Some tasks' ∧
       (∀ j x, old !! j = Some x → tasks' !! j = Some x) ∧
       unitData (snd run) = unitData s).
Proof.
  intros Hd Hu. split; [|split].
  - intros tradeName taskIndex tasks t Ht Hi run.
    destruct (handleTaskToggle_effect s u tradeName taskIndex tasks t Hd Hu Ht Hi)
      as (d' & f' & msg & E & W & _).
    exists (toggle_in tradeName taskIndex tasks t (trades u)),
           (<[taskIndex := toggled t]> tasks), (toggled t).
    subst run. rewrite E. unfold toggle_in.
    split; [destruct s; reflexivity|]. split; [destruct s; exact W|].
    split; [intros other Ho; apply lookup_insert_ne; congruence|].
    split; [apply lookup_insert_eq|]. split; [apply length_insert|].
    split; [intros j Hj; apply list_lookup_insert_ne; congruence|].
    split; [apply list_lookup_insert_eq; eapply lookup_lt_Some; exact Hi|].
    split; reflexivity.
  - intros newTaskName Hsel Hnew run old.
    destruct (handleAddTask_effect s u newTaskName Hd Hu Hsel Hnew)
      as (d' & f' & msg & E & W & _).
    destruct (append_in_frame (selectedTrade s) [mkTask (VStr newTaskName) false] (trades u))
      as (F1 & F2 & F3).
    eexists _, _. subst run. rewrite E.
    split; [destruct s; reflexivity|]. split; [destruct s; exact W|].
    split; [exact F3|]. split; [exact F1|]. split; [exact F2|]. destruct s; reflexivity.
  - intros suggestedTasks run old.
    destruct (newTasksToAdd old suggestedTasks) as [|n0 new'] eqn:En.
    + left. subst run. rewrite (appendSuggestedTasks_nothing_new s u suggestedTasks Hu En).
      destruct s; simpl_state. auto.
    + right.
      assert (Hne : newTasksToAdd (tasks_or_empty (trades u !! selectedTrade s)) suggestedTasks ≠ [])
        by (fold old; rewrite En; discriminate).
      destruct (appendSuggestedTasks_effect s u suggestedTasks Hu Hne)
        as (r & d' & f' & msgs & E & W & _).
      destruct (append_in_frame (selectedTrade s)
                  (newTasksToAdd (tasks_or_empty (trades u !! selectedTrade s)) suggestedTasks)
                  (trades u)) as (F1 & F2 & F3).
      eexists _, _. subst run. rewrite E.
      split; [destruct s; reflexivity|]. split; [destruct s; exact W|].
      split; [exact F3|]. split; [exact F1|]. split; [exact F2|]. destruct s; reflexivity.
Qed.

Lemma task_mutations_frame_witness :
  db view_A1 = true ∧ unitData view_A1 = Some unit_A1 ∧
  only_trades_written "A-1"
    (<["Electrical" := [mkTask (VStr "Rough-in wiring") true;
                        mkTask (VStr "Fixture installation") false]]> defaultTrades)
    (docs view_A1) (docs (snd (handleTaskToggle "Electrical" 0 view_A1))).
Proof.
  split; [reflexivity|]. split; [reflexivity|].
  destruct (task_mutations_frame view_A1 unit_A1 eq_refl eq_refl) as (Htoggle & _ & _).
  destruct (Htoggle "Electrical" 0
              [mkTask (VStr "Rough-in wiring") false; mkTask (VStr "Fixture installation") false]
              (mkTask (VStr "Rough-in wiring") false) eq_refl eq_refl)
    as (written & tasks' & t' & Hreq & Hframe & _).
  assert (Hw : written = <["Electrical" := [mkTask (VStr "Rough-in wiring") true;
                        mkTask (VStr "Fixture installation") false]]> defaultTrades).
  { assert (Hreq' : requests (snd (handleTaskToggle "Electrical" 0 view_A1)) =
      [UpdateDoc "A-1" (<["Electrical" := [mkTask (VStr "Rough-in wiring") true;
                        mkTask (VStr "Fixture installation") false]]> defaultTrades)])
      by reflexivity.
    rewrite Hreq' in Hreq. simpl in Hreq. inversion Hreq. reflexivity. }
  rewrite <- Hw. exact Hframe.
Defined.

(** * Further properties of the handlers *)

(** Reading a field of a state built by setters, outermost setter first. *)
Ltac read_state :=
  cbn [fst snd set_unitData set_isGeneratingTasks set_docs set_faults set_requests
       set_messages set_userId set_selectedTrade db userId unitId unitData
       selectedTrade isGeneratingTasks docs faults requests messages].

(** ** Handlers that refuse to start *)

Lemma addUnitToFirestore_not_ready s unitName unitAddress :
  ready s = false →
  addUnitToFirestore unitName unitAddress s =
    (Returned false,
     set_messages (messages s ++ [mkMessage "Firebase not initialized. Please wait." Err]) s).
Proof.
  unfold ready, addUnitToFirestore. unfold_monad. intros Hr.
  destruct (db s); destruct (no_user s); try discriminate; reflexivity.
Qed.

Lemma addUnitToFirestore_returns s unitName unitAddress :
  ∃ success s', addUnitToFirestore unitName unitAddress s = (Returned success, s') ∧
                ready s' = ready s.
Proof.
  destruct (ready s) eqn:Hr.
  - destruct (doc unitName) as [unitRef|error] eqn:Hdoc.
    + destruct (faults s) as [|[m|] rest] eqn:Ef.
      * rewrite (addUnitToFirestore_accepted _ _ _ _ Hdoc Hr)
          by (unfold next_accepted; rewrite Ef; reflexivity).
        eexists _, _. split; [reflexivity|]. destruct s; exact Hr.
      * rewrite (addUnitToFirestore_rejected _ _ _ _ m rest Hdoc Hr Ef).
        eexists _, _. split; [reflexivity|]. destruct s; exact Hr.
      * rewrite (addUnitToFirestore_accepted _ _ _ _ Hdoc Hr)
          by (unfold next_accepted; rewrite Ef; reflexivity).
        eexists _, _. split; [reflexivity|]. destruct s; exact Hr.
    + rewrite (addUnitToFirestore_invalid _ _ _ _ Hdoc Hr).
      eexists _, _. split; [reflexivity|]. destruct s; exact Hr.
  - rewrite (addUnitToFirestore_not_ready _ _ _ Hr).
    eexists _, _. split; [reflexivity|]. destruct s; exact Hr.
Qed.

(** X1. Before the store handle and the user are set, [addUnitToFirestore]
    returns [false] without sending anything to the store: no request, the
    documents unchanged, and the message "Firebase not initialized. Please
    wait." shown as an error. *)
Theorem addUnit_not_ready_refused s unitName unitAddress :
  ready s = false →
  let run := addUnitToFirestore unitName unitAddress s in
  fst run = Returned false ∧
  requests (snd run) = requests s ∧ docs (snd run) = docs s ∧
  faults (snd run) = faults s ∧
  messages (snd run) =
    messages s ++ [mkMessage "Firebase not initialized. Please wait." Err].
Proof.
  intros Hr run. subst run. rewrite (addUnitToFirestore_not_ready _ _ _ Hr).
  destruct s; simpl_state. auto.
Qed.

Lemma addUnit_not_ready_refused_witness :
  ready signed_out = false ∧
  requests (snd (addUnitToFirestore "A-1" "123 Main" signed_out)) = requests signed_out.
Proof.
  split; [reflexivity|].
  apply (addUnit_not_ready_refused signed_out "A-1" "123 Main" eq_refl).
Defined.

(** X2. The batch does not start when the application is not initialised
    or the confirmation is declined: it returns, sends no request and
    leaves the store unchanged; it shows the "not initialised" error in the
    first case and nothing at all when only the confirmation was declined. *)
Theorem bulk_not_started s confirmGenerate :
  ready s = false ∨ confirmGenerate = false →
  let run := handleGenerateMultipleUnits confirmGenerate s in
  fst run = Returned tt ∧
  requests (snd run) = requests s ∧ docs (snd run) = docs s ∧
  faults (snd run) = faults s ∧
  messages (snd run) =
    (if ready s then messages s
     else messages s ++ [mkMessage "Firebase not initialized. Please wait." Err]).
Proof.
  intros Hwhy run. subst run. unfold handleGenerateMultipleUnits, ready in *. unfold_monad.
  destruct (db s) eqn:Hd; destruct (no_user s) eqn:Hu; cbn [negb orb andb] in *;
    try (destruct s; simpl_state; auto; fail).
  destruct Hwhy as [Hf| ->]; [discriminate|]. cbn [negb]. auto.
Qed.

Lemma bulk_not_started_witness :
  requests (snd (handleGenerateMultipleUnits false home)) = requests home ∧
  messages (snd (handleGenerateMultipleUnits false home)) = [].
Proof.
  destruct (bulk_not_started home false (or_intror eq_refl)) as (_ & Hreq & _ & _ & Hmsg).
  split; [exact Hreq|exact Hmsg].
Defined.

Lemma create_all_returns units : ∀ count s,
  ∃ f s', create_all units count s = (Returned f, s').
Proof.
  induction units as [|u rest IH]; intros count s; cbn [create_all].
  - eexists _, _. reflexivity.
  - unfold mbind at 1, M_bind at 1. unfold create_one. unfold mbind at 1, M_bind at 1.
    destruct (addUnitToFirestore_returns s u.1 u.2) as (success & s1 & E & _). rewrite E.
    destruct success.
    + cbn [mret M_ret]. apply IH.
    + unfold_monad. eexists _, _. reflexivity.
Qed.

(** X3. Apart from [handleTaskToggle], no handler lets an exception escape:
    in every state, for every input, store answer, reply and engine,
    [addUnitToFirestore], [handleGenerateMultipleUnits],
    [handleConfirmAddUnit], [handleAddTask] and [handleSuggestTasks]
    return. *)
Theorem handlers_never_throw `{Engine} s :
  (∀ unitName unitAddress, ∃ success, fst (addUnitToFirestore unitName unitAddress s) = Returned success) ∧
  (∀ confirmGenerate, fst (handleGenerateMultipleUnits confirmGenerate s) = Returned tt) ∧
  (∀ m, ∃ m', fst (handleConfirmAddUnit m s) = Returned m') ∧
  (∀ answer, fst (handleAddTask answer s) = Returned tt) ∧
  (∀ reply, fst (handleSuggestTasks reply s) = Returned tt).
Proof.
  split; [|split; [|split; [|split]]].
  - intros n a. destruct (addUnitToFirestore_returns s n a) as (b & s' & E & _).
    exists b. rewrite E. reflexivity.
  - intros c. unfold handleGenerateMultipleUnits.
    unfold mbind at 1, M_bind at 1, get_state at 1. cbv beta iota.
    destruct (negb (db s) || no_user s); [reflexivity|].
    destruct (negb c); [reflexivity|].
    unfold mbind at 1, M_bind at 1, showMessage at 1, modify at 1. cbv beta iota.
    unfold mbind at 1, M_bind at 1. rewrite for_buildings_flat.
    destruct (create_all_returns
                (flat_map (λ building, map (unit_of building) (seq 1 20)) buildingPrefixes) 0
                (set_messages (messages s ++ [mkMessage "Generating units, please wait..." Info]) s))
      as (f & s' & E).
    rewrite E. destruct f; reflexivity.
  - intros m. unfold handleConfirmAddUnit.
    destruct (_ || _).
    + eexists. reflexivity.
    + unfold mbind at 1, M_bind at 1.
      destruct (addUnitToFirestore_returns s (newUnitName m) (newUnitAddress m))
        as (b & s' & E & _). rewrite E. destruct b; eexists; reflexivity.
  - intros answer. unfold handleAddTask.
    unfold mbind at 1, M_bind at 1, get_state at 1. cbv beta iota.
    destruct (unitData s) as [u|]; [|reflexivity].
    destruct (negb (db s) || _); [reflexivity|].
    destruct answer as [newTaskName|]; [|reflexivity].
    destruct (String.eqb newTaskName EmptyString); [reflexivity|].
    unfold try_catch. unfold mbind at 1, M_bind at 1.
    destruct (updateDoc _ _ _) as [[[]|e] s2]; reflexivity.
  - intros reply.
    destruct (db s) eqn:Hd; [destruct (String.eqb (selectedTrade s) EmptyString) eqn:Hsel;
      [|destruct (unitData s) as [u|] eqn:Hu]|].
    + unfold handleSuggestTasks. unfold mbind at 1, M_bind at 1, get_state at 1.
      cbv beta iota. rewrite Hd, Hsel. reflexivity.
    + apply String.eqb_neq in Hsel.
      rewrite (handleSuggestTasks_guard_passed s u reply Hd Hsel Hu). cbv zeta.
      destruct (suggest_from_reply reply _) as [[[]|e] s2]; reflexivity.
    + unfold handleSuggestTasks. unfold mbind at 1, M_bind at 1, get_state at 1.
      cbv beta iota. rewrite Hd, Hsel, Hu. reflexivity.
    + unfold handleSuggestTasks. unfold mbind at 1, M_bind at 1, get_state at 1.
      cbv beta iota. rewrite Hd. reflexivity.
Qed.

(** ** The add-unit dialog *)

Lemma trimEnd_empty s : trimEnd s = EmptyString ↔ blank s = true.
Proof.
  induction s as [|c rest IH]; cbn [trimEnd blank].
  - split; reflexivity.
  - destruct (trimEnd rest) as [|k kept] eqn:E.
    + destruct (is_space c); cbn [andb].
      * split; [intros _; apply IH; reflexivity|reflexivity].
      * split; discriminate.
    + split; [discriminate|]. intros Hb. apply andb_true_iff in Hb as [_ Hb].
      apply IH in Hb. discriminate.
Qed.

Lemma trimStart_blank s : blank (trimStart s) = blank s.
Proof.
  induction s as [|c rest IH]; cbn [trimStart blank]; [reflexivity|].
  destruct (is_space c) eqn:E; cbn [andb]; [exact IH|].
  cbn [blank]. rewrite E. reflexivity.
Qed.

Lemma trim_empty s : String.eqb (trim s) EmptyString = blank s.
Proof.
  unfold trim. destruct (blank s) eqn:Hb.
  - apply String.eqb_eq, trimEnd_empty. rewrite trimStart_blank. exact Hb.
  - apply String.eqb_neq. intros E. apply trimEnd_empty in E.
    rewrite trimStart_blank in E. congruence.
Qed.

(** X4. The dialog refuses a name or an address that is empty or made of
    white space only: the error "Unit name and address cannot be empty." is
    shown, the dialog stays as it is and nothing else changes (no request
    is sent). *)
Theorem confirm_blank_refused m s :
  blank (newUnitName m) = true ∨ blank (newUnitAddress m) = true →
  handleConfirmAddUnit m s =
    (Returned m,
     set_messages (messages s ++ [mkMessage "Unit name and address cannot be empty." Err]) s).
Proof.
  intros Hb. unfold handleConfirmAddUnit. rewrite !trim_empty.
  assert (E : blank (newUnitName m) || blank (newUnitAddress m) = true).
  { destruct Hb as [-> | ->]; [reflexivity|apply orb_true_r]. }
  rewrite E. reflexivity.
Qed.

Lemma handleConfirmAddUnit_filled m s :
  blank (newUnitName m) = false → blank (newUnitAddress m) = false →
  handleConfirmAddUnit m s =
    match addUnitToFirestore (newUnitName m) (newUnitAddress m) s with
    | (Returned true, s') => (Returned (handleCloseAddUnitModal m), s')
    | (Returned false, s') => (Returned m, s')
    | (Thrown e, s') => (Thrown e, s')
    end.
Proof.
  intros Hn Ha. unfold handleConfirmAddUnit. rewrite !trim_empty, Hn, Ha.
  cbn [orb]. unfold mbind at 1, M_bind at 1.
  destruct (addUnitToFirestore _ _ s) as [[[|]|e] s']; reflexivity.
Qed.

(** X5. With a name and an address that are not blank, in an initialised
    application, the dialog hands the name as typed to [doc] (the name is
    trimmed for the test only).
    - When [doc] resolves the name to the reference [unitRef] (the name as
      typed, spaces included, when it has no [/]): the unit is stored under
      [unitRef] and the dialog closes when the store accepts the write; when
      the store rejects it the dialog stays open with its fields, the store
      is unchanged and the error is shown.
    - When [doc] refuses the name, the dialog stays open with its fields, no
      request is sent, the store is unchanged and the error is shown. *)
Theorem confirm_stores_as_typed m s :
  blank (newUnitName m) = false → blank (newUnitAddress m) = false →
  ready s = true →
  let run := handleConfirmAddUnit m s in
  (∀ unitRef, doc (newUnitName m) = Returned unitRef →
     (slash_free (newUnitName m) = true → unitRef = newUnitName m) ∧
     (next_accepted s = true →
        fst run = Returned (mkModal false (newUnitName m) (newUnitAddress m)) ∧
        docs (snd run) =
          <[unitRef := mkUnit (newUnitAddress m) "Not Started" defaultTrades]> (docs s)) ∧
     (next_accepted s = false →
        fst run = Returned m ∧ docs (snd run) = docs s ∧
        ∃ why, last (messages (snd run)) = Some (mkMessage ("Error adding unit: " +:+ why) Err))) ∧
  (∀ error, doc (newUnitName m) = Thrown error →
     fst run = Returned m ∧ docs (snd run) = docs s ∧ requests (snd run) = requests s ∧
     last (messages (snd run)) =
       Some (mkMessage ("Error adding unit: " +:+ message error) Err)).
Proof.
  intros Hn Ha Hr run. subst run. rewrite (handleConfirmAddUnit_filled m s Hn Ha). split.
  - intros unitRef Hdoc. split; [|split].
    + intros Hs. assert (Hid : document_id (newUnitName m) = true).
      { unfold document_id. rewrite Hs.
        destruct (newUnitName m); [discriminate Hn|reflexivity]. }
      apply doc_document_id in Hid. congruence.
    + intros Hacc. rewrite (addUnitToFirestore_accepted _ _ _ _ Hdoc Hr Hacc).
      destruct s; simpl_state. split; reflexivity.
    + intros Hacc. unfold next_accepted in Hacc.
      destruct (faults s) as [|[why|] rest] eqn:Ef; try discriminate.
      rewrite (addUnitToFirestore_rejected _ _ _ _ why rest Hdoc Hr Ef).
      destruct s; simpl_state. rewrite last_snoc. eauto.
  - intros error Hdoc. rewrite (addUnitToFirestore_invalid _ _ _ _ Hdoc Hr).
    destruct s; simpl_state. rewrite last_snoc. auto.
Qed.

Lemma confirm_blank_refused_witness :
  blank (newUnitName (mkModal true "  " "123 Main")) = true ∧
  requests (snd (handleConfirmAddUnit (mkModal true "  " "123 Main") home)) = [].
Proof.
  split; [reflexivity|].
  rewrite (confirm_blank_refused (mkModal true "  " "123 Main") home); [reflexivity|].
  left. reflexivity.
Defined.

Lemma confirm_stores_as_typed_witness :
  blank (newUnitName typed_with_spaces) = false ∧
  blank (newUnitAddress typed_with_spaces) = false ∧
  ready home = true ∧ next_accepted home = true ∧
  getUnit (snd (handleConfirmAddUnit typed_with_spaces home)) " A-1 " =
    Some (mkUnit "123 Main" "Not Started" defaultTrades) ∧
  getUnit (snd (handleConfirmAddUnit typed_with_spaces home)) "A-1" = None.
Proof.
  split; [reflexivity|]. split; [reflexivity|]. split; [reflexivity|]. split; [reflexivity|].
  destruct (confirm_stores_as_typed typed_with_spaces home eq_refl eq_refl eq_refl) as [Hdoc _].
  destruct (Hdoc " A-1 " eq_refl) as (_ & Hacc & _).
  destruct (Hacc eq_refl) as [_ Hdocs]. unfold getUnit. rewrite Hdocs.
  split; reflexivity.
Defined.

(** The dialog with names that have a [/]: "A-1/" replaces the unit "A-1",
    and "A/1" is refused with nothing sent. *)
Example confirm_names_with_slash :
  doc "A-1/" = Returned "A-1" ∧
  getUnit home_with_A1 "A-1" = Some unit_A1_in_progress ∧
  getUnit (snd (handleConfirmAddUnit (mkModal true "A-1/" "9 Elm St") home_with_A1)) "A-1" =
    Some (mkUnit "9 Elm St" "Not Started" defaultTrades) ∧
  fst (handleConfirmAddUnit (mkModal true "A/1" "9 Elm St") home_with_A1) =
    Returned (mkModal true "A/1" "9 Elm St") ∧
  requests (snd (handleConfirmAddUnit (mkModal true "A/1" "9 Elm St") home_with_A1)) = [] ∧
  docs (snd (handleConfirmAddUnit (mkModal true "A/1" "9 Elm St") home_with_A1)) =
    docs home_with_A1.
Proof. repeat split; reflexivity. Qed.

(** ** Bulk generation over a store that holds units *)

Lemma insert_units_lookup_other units : ∀ (d : gmap string UnitDoc) name,
  name ∉ units.*1 → insert_units units d !! name = d !! name.
Proof.
  induction units as [|u rest IH]; intros d name Hn; [reflexivity|].
  unfold insert_units in *. cbn [foldl]. cbn [fmap list_fmap] in Hn.
  apply not_elem_of_cons in Hn as [Hne Hn].
  rewrite IH by exact Hn. apply lookup_insert_ne. congruence.
Qed.

Lemma insert_units_lookup units : ∀ (d : gmap string UnitDoc) name unitAddress,
  NoDup units.*1 → (name, unitAddress) ∈ units →
  insert_units units d !! name = Some (fresh_unit unitAddress).
Proof.
  induction units as [|u rest IH]; intros d name a Hnd Hin; [inversion Hin|].
  cbn [fmap list_fmap] in Hnd. apply NoDup_cons in Hnd as [Hu Hnd].
  unfold insert_units in *. cbn [foldl].
  apply elem_of_cons in Hin as [<-|Hin].
  - cbn [fst snd] in *. fold (insert_units rest (<[name := fresh_unit a]> d)).
    rewrite insert_units_lookup_other by exact Hu. apply lookup_insert_eq.
  - apply IH; assumption.
Qed.

Lemma handleGenerateMultipleUnits_accepted s :
  ready s = true → Forall (λ f, f = None) (take 80 (faults s)) →
  docs (snd (handleGenerateMultipleUnits true s)) = insert_units bulk_units (docs s) ∧
  faults (snd (handleGenerateMultipleUnits true s)) = drop 80 (faults s) ∧
  ready (snd (handleGenerateMultipleUnits true s)) = true.
Proof.
  intros Hr Hf.
  assert (E : handleGenerateMultipleUnits true s =
    match create_all bulk_units 0
            (set_messages (messages s ++ [mkMessage "Generating units, please wait..." Info]) s) with
    | (Returned (Next n), s') =>
        showMessage ("Successfully added " +:+ pretty n +:+ " units!") Info s'
    | (Returned Return, s') => (Returned tt, s')
    | (Thrown e, s') => (Thrown e, s')
    end).
  { unfold handleGenerateMultipleUnits. unfold_monad.
    unfold ready in Hr. apply andb_true_iff in Hr as [Hd Hu].
    rewrite negb_true_iff in Hu. rewrite Hd, Hu. cbn [negb orb]. cbv beta iota.
    rewrite for_buildings_flat. fold bulk_units.
    destruct (create_all bulk_units 0 _) as [[[n|]|e] s1]; reflexivity. }
  rewrite E, create_all_accepted;
    [|exact bulk_units_resolved|destruct s; exact Hr|destruct s; exact Hf].
  clear E. unfold showMessage, modify. cbn [snd].
  destruct s; split; [reflexivity|split; [reflexivity|exact Hr]].
Qed.

(** X6. A batch whose 80 writes are accepted leaves every unit of the batch
    as a fresh default unit with its own address, whatever was stored under
    that name before, and leaves the units with other names untouched. *)
Theorem bulk_resets_units s :
  ready s = true → Forall (λ f, f = None) (take 80 (faults s)) →
  let run := handleGenerateMultipleUnits true s in
  (∀ name unitAddress, (name, unitAddress) ∈ bulk_units →
     getUnit (snd run) name = Some (mkUnit unitAddress "Not Started" defaultTrades)) ∧
  (∀ name, name ∉ bulk_units.*1 → getUnit (snd run) name = getUnit s name).
Proof.
  intros Hr Hf run. subst run. unfold getUnit.
  destruct (handleGenerateMultipleUnits_accepted s Hr Hf) as (-> & _ & _). split.
  - intros name a Hin. apply insert_units_lookup; [apply bulk_units_names|exact Hin].
  - intros name Hn. apply insert_units_lookup_other. exact Hn.
Qed.

(** X7. Running the batch a second time, when all writes are accepted,
    leaves the store as the first run left it. *)
Theorem bulk_twice_same s :
  ready s = true → Forall (λ f, f = None) (take 160 (faults s)) →
  let once := snd (handleGenerateMultipleUnits true s) in
  let twice := snd (handleGenerateMultipleUnits true once) in
  docs twice = docs once.
Proof.
  intros Hr Hf once twice. subst once twice.
  assert (Hf1 : Forall (λ f, f = None) (take 80 (faults s))).
  { rewrite Forall_forall in *. intros f Hin. apply Hf.
    apply elem_of_take in Hin as (i & Hi & Hlt). apply elem_of_take. exists i. split; [exact Hi|lia]. }
  destruct (handleGenerateMultipleUnits_accepted s Hr Hf1) as (Hd1 & Hfs1 & Hr1).
  assert (Hf2 : Forall (λ f, f = None)
                  (take 80 (faults (snd (handleGenerateMultipleUnits true s))))).
  { rewrite Hfs1. rewrite Forall_forall in *. intros f Hin. apply Hf.
    apply elem_of_take in Hin as (i & Hi & Hlt). rewrite lookup_drop in Hi.
    apply elem_of_take. exists (80 + i). split; [exact Hi|lia]. }
  destruct (handleGenerateMultipleUnits_accepted _ Hr1 Hf2) as (Hd2 & _ & _).
  rewrite Hd2, Hd1. apply map_eq. intros name.
  destruct (decide (name ∈ bulk_units.*1)) as [Hin|Hn].
  - apply list_elem_of_fmap in Hin as ([n a] & -> & Hin). cbn [fst].
    rewrite !(insert_units_lookup bulk_units _ n a); [reflexivity| | | |];
      first [apply bulk_units_names | exact Hin].
  - rewrite insert_units_lookup_other by exact Hn. reflexivity.
Qed.

Lemma bulk_resets_units_witness :
  ready home_with_A1 = true ∧
  getUnit (snd (handleGenerateMultipleUnits true home_with_A1)) "BuildingC-Unit07" =
    Some (mkUnit "BuildingC Address, Unit 07" "Not Started" defaultTrades) ∧
  getUnit (snd (handleGenerateMultipleUnits true home_with_A1)) "A-1" =
    Some unit_A1_in_progress.
Proof.
  split; [reflexivity|].
  assert (Hf : Forall (λ f : option string, f = None) (take 80 (faults home_with_A1)))
    by (vm_compute; constructor).
  destruct (bulk_resets_units home_with_A1 eq_refl Hf) as [Hin Hout]. split.
  - apply Hin. apply list_elem_of_lookup. exists 46. reflexivity.
  - rewrite Hout; [reflexivity|].
    intros Hin'. apply list_elem_of_In in Hin'. vm_compute in Hin'.
    repeat (destruct Hin' as [Hin'|Hin']; [discriminate Hin'|]). exact Hin'.
Defined.

Lemma bulk_twice_same_witness :
  ready home = true ∧
  docs (snd (handleGenerateMultipleUnits true (snd (handleGenerateMultipleUnits true home)))) =
  docs (snd (handleGenerateMultipleUnits true home)).
Proof.
  split; [reflexivity|].
  apply (bulk_twice_same home eq_refl). vm_compute. constructor.
Defined.

(** ** The unit view when a write fails, or nothing is loaded *)

(** X8. When the store rejects the write of a toggle, the handler returns,
    shows "Error updating task: ..." with the store's message and the store
    is unchanged, but [unitData] holds the task with [completed] flipped:
    the view is ahead of the store. *)
Theorem toggle_rejected_view_ahead s u tradeName taskIndex tasks t m rest :
  db s = true → unitData s = Some u →
  trades u !! tradeName = Some tasks → tasks !! taskIndex = Some t →
  faults s = Some m :: rest →
  let run := handleTaskToggle tradeName taskIndex s in
  fst run = Returned tt ∧
  docs (snd run) = docs s ∧
  messages (snd run) = messages s ++ [mkMessage ("Error updating task: " +:+ m) Err] ∧
  ∃ u' tasks' t',
    unitData (snd run) = Some u' ∧ trades u' !! tradeName = Some tasks' ∧
    tasks' !! taskIndex = Some t' ∧
    task t' = task t ∧ completed t' = negb (completed t).
Proof.
  intros Hd Hu Ht Hi Hf run. subst run.
  rewrite (handleTaskToggle_valid s u tradeName taskIndex tasks t Hd Hu Ht Hi). cbv zeta.
  rewrite (updateDoc_rejected _ _ _ m rest) by (destruct s; exact Hf).
  destruct s as [d uid un ud st ig dcs fts reqs msgs]; simpl_state.
  split; [reflexivity|]. split; [reflexivity|]. split; [reflexivity|].
  exists (with_trades (toggle_in tradeName taskIndex tasks t (trades u)) u),
         (<[taskIndex := toggled t]> tasks), (toggled t).
  split; [reflexivity|]. split; [apply lookup_insert_eq|].
  split; [apply list_lookup_insert_eq; eapply lookup_lt_Some; exact Hi|].
  split; reflexivity.
Qed.

Lemma toggle_rejected_view_ahead_witness :
  db view_A1 = true ∧ faults (set_faults [Some "unavailable"] view_A1) = [Some "unavailable"] ∧
  docs (snd (handleTaskToggle "Electrical" 0 (set_faults [Some "unavailable"] view_A1))) =
    docs view_A1.
Proof.
  split; [reflexivity|]. split; [reflexivity|].
  apply (toggle_rejected_view_ahead (set_faults [Some "unavailable"] view_A1) unit_A1
           "Electrical" 0
           [mkTask (VStr "Rough-in wiring") false; mkTask (VStr "Fixture installation") false]
           (mkTask (VStr "Rough-in wiring") false) "unavailable" []); reflexivity.
Defined.

Lemma handleTaskToggle_unit_gone_reported_witness :
  docs (set_docs ∅ view_A1) !! unitId (set_docs ∅ view_A1) = None ∧
  ∃ why, messages (snd (handleTaskToggle "Electrical" 0 (set_docs ∅ view_A1))) =
           [mkMessage ("Error updating task: " +:+ why) Err].
Proof.
  split; [reflexivity|].
  apply (handleTaskToggle_unit_gone_reported (set_docs ∅ view_A1) unit_A1 "Electrical" 0
           [mkTask (VStr "Rough-in wiring") false; mkTask (VStr "Fixture installation") false]
           (mkTask (VStr "Rough-in wiring") false)); reflexivity.
Defined.

Lemma snapshot_after_toggle_witness :
  docs view_A1 !! unitId view_A1 = Some unit_A1 ∧ next_accepted view_A1 = true ∧
  selectedTrade view_A1 ≠ EmptyString ∧
  unitSnapshot listed_keys (snd (handleTaskToggle "Electrical" 0 view_A1)) =
    (Returned false, snd (handleTaskToggle "Electrical" 0 view_A1)).
Proof.
  split; [reflexivity|]. split; [reflexivity|]. split; [discriminate|].
  apply (snapshot_after_toggle listed_keys view_A1 unit_A1 "Electrical" 0
           [mkTask (VStr "Rough-in wiring") false; mkTask (VStr "Fixture installation") false]
           (mkTask (VStr "Rough-in wiring") false)); try reflexivity.
  discriminate.
Defined.

(** X11. Without unit data the handlers of the unit view write nothing:
    [handleTaskToggle] returns silently, leaving the state as it is;
    [handleAddTask] and [handleSuggestTasks] only show their error
    message. *)
Theorem unit_view_needs_unit_data `{Engine} s :
  unitData s = None →
  (∀ tradeName taskIndex, handleTaskToggle tradeName taskIndex s = (Returned tt, s)) ∧
  (∀ answer,
     handleAddTask answer s =
       (Returned tt, set_messages (messages s ++ [mkMessage "Please select a trade first." Err]) s)) ∧
  (∀ reply,
     handleSuggestTasks reply s =
       (Returned tt,
        set_messages (messages s ++
          [mkMessage "Please select a trade and ensure unit data is loaded." Err]) s)).
Proof.
  intros Hu. split; [|split].
  - intros tn i. unfold handleTaskToggle. unfold_monad. rewrite Hu. reflexivity.
  - intros answer. unfold handleAddTask. unfold_monad. rewrite Hu. reflexivity.
  - intros reply. unfold handleSuggestTasks. unfold_monad. rewrite Hu.
    cbn [bool_decide]. rewrite bool_decide_eq_false_2 by (intros [x Hx]; discriminate).
    cbn [negb]. rewrite !orb_true_r. reflexivity.
Qed.

Lemma unit_view_needs_unit_data_witness :
  unitData (set_unitData None view_A1) = None ∧
  requests (snd (handleAddTask (Some "Install panel") (set_unitData None view_A1))) = [].
Proof.
  split; [reflexivity|].
  destruct (@unit_view_needs_unit_data sample_engine (set_unitData None view_A1) eq_refl)
    as (_ & Hadd & _).
  rewrite Hadd. reflexivity.
Defined.

(** X12. A cancelled prompt and an empty answer are treated alike, and with
    a unit loaded and a trade selected they change nothing: no task, no
    request, no message. *)
Theorem addTask_cancelled_does_nothing s :
  handleAddTask None s = handleAddTask (Some EmptyString) s ∧
  (unitData s ≠ None → db s = true → selectedTrade s ≠ EmptyString →
   handleAddTask None s = (Returned tt, s)).
Proof.
  split.
  - unfold handleAddTask. unfold_monad. destruct (unitData s); [|reflexivity].
    destruct (negb (db s) || _); reflexivity.
  - intros Hu Hd Hsel. unfold handleAddTask. unfold_monad.
    destruct (unitData s); [|congruence].
    apply String.eqb_neq in Hsel. rewrite Hd, Hsel. reflexivity.
Qed.

Lemma addTask_cancelled_does_nothing_witness :
  unitData view_A1 ≠ None ∧ handleAddTask None view_A1 = (Returned tt, view_A1).
Proof.
  split; [discriminate|].
  apply (addTask_cancelled_does_nothing view_A1); [discriminate|reflexivity|discriminate].
Defined.

(** X13. When the write of [handleAddTask] fails, because the store rejects
    it or because the unit's document is gone, the handler returns, shows
    "Error adding task: ..." with the reason, and leaves the store and
    [unitData] unchanged. *)
Theorem addTask_failure_reported s u newTaskName :
  db s = true → unitData s = Some u → selectedTrade s ≠ EmptyString →
  newTaskName ≠ EmptyString →
  let run := handleAddTask (Some newTaskName) s in
  (∀ m rest, faults s = Some m :: rest →
     fst run = Returned tt ∧ docs (snd run) = docs s ∧ unitData (snd run) = unitData s ∧
     messages (snd run) = messages s ++ [mkMessage ("Error adding task: " +:+ m) Err]) ∧
  (next_accepted s = true → docs s !! unitId s = None →
     fst run = Returned tt ∧ docs (snd run) = docs s ∧ unitData (snd run) = unitData s ∧
     messages (snd run) =
       messages s ++ [mkMessage ("Error adding task: No document to update: " +:+ unitId s) Err]).
Proof.
  intros Hd Hu Hsel Hnew run.
  assert (Hrun : run =
    match updateDoc (unitId s)
            (append_in (selectedTrade s) [mkTask (VStr newTaskName) false] (trades u)) s with
    | (Returned _, s2) =>
        (Returned tt,
         set_messages (messages s2 ++ [mkMessage ("Task " +:+ quoted newTaskName +:+ " added to "
                                                  +:+ selectedTrade s +:+ "!") Info]) s2)
    | (Thrown e, s2) =>
        (Returned tt,
         set_messages (messages s2 ++ [mkMessage ("Error adding task: " +:+ message e) Err]) s2)
    end).
  { subst run. unfold handleAddTask.
    unfold mbind at 1, M_bind at 1, get_state at 1. cbv beta iota.
    rewrite Hu, Hd. apply String.eqb_neq in Hsel, Hnew. rewrite Hsel, Hnew. cbn [negb orb].
    unfold try_catch. unfold mbind at 1, M_bind at 1. unfold append_in.
    destruct (updateDoc _ _ _) as [[[]|e] s2]; reflexivity. }
  rewrite Hrun. clear Hrun. split.
  - intros m rest Hf. rewrite (updateDoc_rejected _ _ _ m rest Hf).
    destruct s; simpl_state. auto.
  - intros Ha Hgone. unfold updateDoc. unfold_monad. unfold next_accepted in Ha.
    destruct s as [d uid un ud st ig dcs fts reqs msgs]; simpl_state.
    destruct fts as [|[m|] rest]; try discriminate; simpl_state; rewrite Hgone; simpl_state; auto.
Qed.

Lemma addTask_failure_reported_witness :
  db view_A1 = true ∧ unitData view_A1 = Some unit_A1 ∧
  messages (snd (handleAddTask (Some "Install panel") (set_docs ∅ view_A1))) =
    [mkMessage "Error adding task: No document to update: A-1" Err].
Proof.
  split; [reflexivity|]. split; [reflexivity|].
  assert (Hsel : selectedTrade (set_docs ∅ view_A1) ≠ EmptyString) by discriminate.
  assert (Hnew : "Install panel" ≠ EmptyString) by discriminate.
  destruct (addTask_failure_reported (set_docs ∅ view_A1) unit_A1 "Install panel"
              eq_refl eq_refl Hsel Hnew) as [_ Hgone].
  destruct (Hgone eq_refl eq_refl) as (_ & _ & _ & Hm). rewrite Hm. reflexivity.
Defined.

(** ** The rendered task list and the snapshots *)

(** X14. Every call the rendered task list can make is safe: for each item
    of [currentTasks], [handleTaskToggle(selectedTrade, index)] returns, and
    when the store handle is set it sends one update in which the task at
    that index of the selected trade is the rendered one with [completed]
    negated. *)
Theorem rendered_toggle_is_safe s tradeName taskIndex :
  (tradeName, taskIndex) ∈ task_clicks s →
  let run := handleTaskToggle tradeName taskIndex s in
  fst run = Returned tt ∧
  (db s = true →
   ∃ written tasks' t',
     requests (snd run) = requests s ++ [UpdateDoc (unitId s) written] ∧
     written !! selectedTrade s = Some tasks' ∧ tasks' !! taskIndex = Some t' ∧
     (∃ u, unitData s = Some u ∧
        (λ t, (task t, negb (completed t))) <$> currentTasks s u !! taskIndex
          = Some (task t', completed t'))).
Proof.
  intros Hin run.
  destruct (task_clicks_valid s tradeName taskIndex Hin) as (-> & u & tasks & t & Hu & Ht & Hi).
  destruct (db s) eqn:Hd.
  - destruct (handleTaskToggle_effect s u (selectedTrade s) taskIndex tasks t Hd Hu Ht Hi)
      as (d' & f' & msg & E & _ & _).
    subst run. rewrite E. split; [reflexivity|]. intros _.
    exists (toggle_in (selectedTrade s) taskIndex tasks t (trades u)),
           (<[taskIndex := toggled t]> tasks), (toggled t).
    split; [destruct s; reflexivity|]. split; [apply lookup_insert_eq|].
    split; [apply list_lookup_insert_eq; eapply lookup_lt_Some; exact Hi|].
    exists u. split; [exact Hu|]. unfold currentTasks.
    destruct (String.eqb (selectedTrade s) EmptyString) eqn:Hsel.
    + unfold task_clicks, currentTasks in Hin. rewrite Hu, Hsel in Hin. inversion Hin.
    + rewrite Ht. cbn [tasks_or_empty]. rewrite Hi. reflexivity.
  - split; [|discriminate]. subst run. unfold handleTaskToggle. unfold_monad.
    rewrite Hu, Hd. reflexivity.
Qed.

Lemma rendered_toggle_is_safe_witness :
  ("Electrical", 1) ∈ task_clicks view_A1 ∧
  fst (handleTaskToggle "Electrical" 1 view_A1) = Returned tt.
Proof.
  assert (Hin : ("Electrical", 1) ∈ task_clicks view_A1).
  { apply list_elem_of_lookup. exists 1. reflexivity. }
  split; [exact Hin|].
  apply (rendered_toggle_is_safe view_A1 "Electrical" 1 Hin).
Defined.

Lemma unitSnapshot_existing Object_keys s data :
  getUnit s (unitId s) = Some data →
  unitSnapshot Object_keys s =
    (Returned false,
     let s1 := set_unitData (Some data) s in
     if String.eqb (selectedTrade s) EmptyString then
       match Object_keys (trades data) with
       | firstTrade :: _ =>
           if String.eqb firstTrade EmptyString then s1 else set_selectedTrade firstTrade s1
       | [] => s1
       end
     else s1).
Proof.
  intros Hg. unfold unitSnapshot. unfold_monad. rewrite Hg.
  destruct (String.eqb (selectedTrade s) EmptyString).
  - destruct (Object_keys (trades data)) as [|firstTrade rest]; [reflexivity|].
    destruct (String.eqb firstTrade EmptyString); reflexivity.
  - reflexivity.
Qed.

(** X15. A snapshot of an existing unit sets [unitData] to the stored
    document and [loading] to [false], writes nothing and shows nothing.  It
    never changes a trade that is selected; when none is selected it
    selects nothing or a trade of the unit, whose tasks are then the ones
    listed. *)
Theorem snapshot_selects_a_trade Object_keys s data :
  getUnit s (unitId s) = Some data →
  (∀ name, name ∈ Object_keys (trades data) → is_Some (trades data !! name)) →
  let run := unitSnapshot Object_keys s in
  fst run = Returned false ∧
  unitData (snd run) = Some data ∧
  docs (snd run) = docs s ∧ requests (snd run) = requests s ∧
  messages (snd run) = messages s ∧
  (selectedTrade s ≠ EmptyString → selectedTrade (snd run) = selectedTrade s) ∧
  (selectedTrade s = EmptyString →
     selectedTrade (snd run) = EmptyString ∨
     ∃ tasks, trades data !! selectedTrade (snd run) = Some tasks ∧
              currentTasks (snd run) data = tasks).
Proof.
  intros Hg Hkeys run. subst run. rewrite (unitSnapshot_existing Object_keys s data Hg).
  cbn [fst snd]. cbv zeta. split; [reflexivity|].
  destruct (String.eqb (selectedTrade s) EmptyString) eqn:Hsel.
  - apply String.eqb_eq in Hsel.
    destruct (Object_keys (trades data)) as [|firstTrade rest] eqn:Ek.
    + destruct s; simpl_state. do 4 (split; [reflexivity|]).
      split; [congruence|]. intros _. left. exact Hsel.
    + destruct (String.eqb firstTrade EmptyString) eqn:Hfirst.
      * destruct s; simpl_state. do 4 (split; [reflexivity|]).
        split; [congruence|]. intros _. left. exact Hsel.
      * destruct (Hkeys firstTrade) as [tasks Htasks]; [left|].
        destruct s; simpl_state. do 4 (split; [reflexivity|]).
        split; [congruence|]. intros _. right. exists tasks. split; [exact Htasks|].
        unfold currentTasks, set_selectedTrade. simpl_state. rewrite Hfirst, Htasks. reflexivity.
  - destruct s; simpl_state. do 4 (split; [reflexivity|]).
    split; [reflexivity|]. apply String.eqb_neq in Hsel. congruence.
Qed.

Lemma snapshot_selects_a_trade_witness :
  getUnit (set_selectedTrade EmptyString view_A1) "A-1" = Some unit_A1 ∧
  fst (unitSnapshot listed_keys (set_selectedTrade EmptyString view_A1)) = Returned false.
Proof.
  assert (Hthere : getUnit (set_selectedTrade EmptyString view_A1)
                     (unitId (set_selectedTrade EmptyString view_A1)) = Some unit_A1)
    by reflexivity.
  split; [exact Hthere|].
  apply (snapshot_selects_a_trade listed_keys (set_selectedTrade EmptyString view_A1) unit_A1
           Hthere).
  intros name Hin. unfold listed_keys in Hin.
  apply list_elem_of_fmap in Hin as ([k v] & -> & Hin).
  apply elem_of_map_to_list in Hin. exists v. exact Hin.
Defined.

(** X16. A snapshot of a unit whose document does not exist clears
    [unitData] and shows "Unit ... not found."; from then on the task list
    offers no toggle, [handleTaskToggle] does nothing and [handleAddTask]
    sends no request. *)
Theorem deleted_unit_disables_view Object_keys s :
  getUnit s (unitId s) = None →
  let run := unitSnapshot Object_keys s in
  fst run = Returned false ∧
  unitData (snd run) = None ∧
  messages (snd run) = messages s ++ [mkMessage ("Unit " +:+ quoted (unitId s) +:+ " not found.") Err] ∧
  task_clicks (snd run) = [] ∧
  (∀ tradeName taskIndex,
     handleTaskToggle tradeName taskIndex (snd run) = (Returned tt, snd run)) ∧
  (∀ answer, requests (snd (handleAddTask answer (snd run))) = requests s).
Proof.
  intros Hg run. subst run. unfold unitSnapshot. unfold_monad. rewrite Hg.
  destruct s as [d uid un ud st ig dcs fts reqs msgs]; simpl_state.
  split; [reflexivity|]. split; [reflexivity|]. split; [reflexivity|]. split; [reflexivity|].
  split; intros; reflexivity.
Qed.

Lemma deleted_unit_disables_view_witness :
  getUnit (set_docs ∅ view_A1) (unitId (set_docs ∅ view_A1)) = None ∧
  unitData (snd (unitSnapshot listed_keys (set_docs ∅ view_A1))) = None.
Proof.
  assert (Hgone : getUnit (set_docs ∅ view_A1) (unitId (set_docs ∅ view_A1)) = None)
    by reflexivity.
  split; [exact Hgone|].
  apply (deleted_unit_disables_view listed_keys (set_docs ∅ view_A1) Hgone).
Defined.

(** ** A suggestion whose write fails *)

(** X17. When the reply carries new tasks and the store rejects the write,
    [handleSuggestTasks] returns, shows "Error suggesting tasks: ..." with
    the store's message, leaves the store and [unitData] unchanged and
    resets [isGeneratingTasks]. *)
Theorem suggest_write_failure_reported `{Engine} s u text items m rest :
  db s = true → selectedTrade s ≠ EmptyString → unitData s = Some u →
  JSON_parse (VStr text) = Returned (VArr items) →
  newTasksToAdd (tasks_or_empty (trades u !! selectedTrade s)) items ≠ [] →
  faults s = Some m :: rest →
  let run := handleSuggestTasks (Returned (gemini_reply text)) s in
  fst run = Returned tt ∧
  docs (snd run) = docs s ∧ unitData (snd run) = unitData s ∧
  isGeneratingTasks (snd run) = false ∧
  messages (snd run) =
    messages s ++ [mkMessage ("Generating tasks for " +:+ selectedTrade s +:+ "...") Info;
                   mkMessage ("Error suggesting tasks: " +:+ m) Err].
Proof.
  intros Hd Hsel Hu Hp Hnew Hf run. subst run.
  assert (Hitems : items ≠ []).
  { intros ->. apply Hnew. reflexivity. }
  rewrite (handleSuggestTasks_accepted s u text items Hd Hsel Hu Hp Hitems). cbv zeta.
  set (s1 := set_messages _ (set_isGeneratingTasks true s)).
  assert (Hrun : appendSuggestedTasks items s1 =
            (Thrown (FirebaseError m),
             set_faults rest (set_requests (requests s1 ++
               [UpdateDoc (unitId s1)
                  (append_in (selectedTrade s1)
                     (newTasksToAdd (tasks_or_empty (trades u !! selectedTrade s1)) items)
                     (trades u))]) s1))).
  { unfold appendSuggestedTasks.
    unfold mbind at 1, M_bind at 1, get_state at 1. cbv beta iota.
    replace (unitData s1) with (Some u) by (subst s1; destruct s; simpl_state; congruence).
    replace (selectedTrade s1) with (selectedTrade s) in * by (subst s1; destruct s; reflexivity).
    destruct (newTasksToAdd (tasks_or_empty (trades u !! selectedTrade s)) items)
      as [|n0 new'] eqn:En; [congruence|].
    cbn [length Nat.ltb Nat.leb]. unfold mbind at 1, M_bind at 1.
    rewrite (updateDoc_rejected _ _ s1 m rest) by (subst s1; destruct s; exact Hf).
    reflexivity. }
  rewrite Hrun. clear Hrun. subst s1. read_state.
  rewrite <- app_assoc. auto.
Qed.

Lemma suggest_write_failure_reported_witness :
  faults (set_faults [Some "unavailable"] view_A1) = [Some "unavailable"] ∧
  messages (snd (@handleSuggestTasks sample_engine (Returned (gemini_reply JSON_text_conduit))
                   (set_faults [Some "unavailable"] view_A1))) =
    [mkMessage "Generating tasks for Electrical..." Info;
     mkMessage "Error suggesting tasks: unavailable" Err].
Proof.
  split; [reflexivity|].
  assert (Hsel : selectedTrade (set_faults [Some "unavailable"] view_A1) ≠ EmptyString)
    by discriminate.
  assert (Hnew : newTasksToAdd
                   (tasks_or_empty (trades unit_A1 !!
                      selectedTrade (set_faults [Some "unavailable"] view_A1)))
                   [VStr "Rough-in wiring"; VStr "Install conduit"] ≠ []) by discriminate.
  apply (@suggest_write_failure_reported sample_engine
           (set_faults [Some "unavailable"] view_A1) unit_A1 JSON_text_conduit
           [VStr "Rough-in wiring"; VStr "Install conduit"] "unavailable" []
           eq_refl Hsel eq_refl eq_refl Hnew eq_refl).
Defined.

(** ** Navigation *)

Lemma nav_step_invariant n e :
  click_of_card e →
  (currentPage n = PageHome ∨
   ∃ unitId, unitId ≠ EmptyString ∧ n = mkNav PageUnitView (Some unitId)) →
  (currentPage (nav_step n e) = PageHome ∨
   ∃ unitId, unitId ≠ EmptyString ∧ nav_step n e = mkNav PageUnitView (Some unitId)).
Proof.
  intros Hc Hn. destruct e as [unitId| |ready s param]; cbn [nav_step].
  - right. exists unitId. split; [exact Hc|reflexivity].
  - left. reflexivity.
  - unfold unitsEffect. destruct (ready && db s && negb (no_user s)); [|exact Hn].
    destruct param as [param|]; [|exact Hn].
    destruct (String.eqb param EmptyString) eqn:Hp; [exact Hn|].
    right. exists param. split; [apply String.eqb_neq; exact Hp|reflexivity].
Qed.

Lemma nav_run_snoc es e : nav_run (es ++ [e]) = nav_step (nav_run es) e.
Proof. unfold nav_run. apply foldl_snoc. Qed.

(** X18. Whatever cards are clicked, back actions taken and effects run,
    [App] renders exactly one page: the home page, or the view of a unit
    with a non-empty id.  A click shows the clicked unit whatever came
    before; a back action returns to the initial state; the [unitId]
    parameter of the URL opens that unit once the user is signed in, and is
    ignored when it is absent or empty or the application is not ready. *)
Theorem navigation_shows_one_page es :
  Forall click_of_card es →
  (render (nav_run es) = [HomePage] ∨
   ∃ unitId, unitId ≠ EmptyString ∧ render (nav_run es) = [UnitView unitId]) ∧
  (∀ unitId, unitId ≠ EmptyString →
     render (nav_run (es ++ [Click unitId])) = [UnitView unitId]) ∧
  nav_run (es ++ [Back]) = initial_nav ∧
  (∀ isAuthReady s param,
     isAuthReady && ready s = true → param ≠ EmptyString →
     render (nav_run (es ++ [Effect isAuthReady s (Some param)])) = [UnitView param]) ∧
  (∀ isAuthReady s param,
     isAuthReady && ready s = false ∨ param = None ∨ param = Some EmptyString →
     nav_run (es ++ [Effect isAuthReady s param]) = nav_run es).
Proof.
  intros Hes.
  assert (Hinv : currentPage (nav_run es) = PageHome ∨
                 ∃ unitId, unitId ≠ EmptyString ∧ nav_run es = mkNav PageUnitView (Some unitId)).
  { induction es as [|e es IH] using rev_ind.
    - left. reflexivity.
    - apply Forall_app in Hes as [Hes He]. rewrite nav_run_snoc.
      apply nav_step_invariant; [inversion He; assumption|apply IH; exact Hes]. }
  split; [|split; [|split; [|split]]].
  - destruct Hinv as [Hh|(unitId & Hne & Hn)].
    + left. unfold render. rewrite Hh. reflexivity.
    + right. exists unitId. split; [exact Hne|]. rewrite Hn. unfold render. cbn.
      apply String.eqb_neq in Hne. rewrite Hne. reflexivity.
  - intros unitId Hne. rewrite nav_run_snoc. unfold render. cbn.
    apply String.eqb_neq in Hne. rewrite Hne. reflexivity.
  - rewrite nav_run_snoc. reflexivity.
  - intros isAuthReady s param Hr Hp. rewrite nav_run_snoc. cbn [nav_step]. unfold unitsEffect.
    unfold ready in Hr. rewrite andb_assoc in Hr. rewrite Hr.
    apply String.eqb_neq in Hp. rewrite Hp. unfold render. cbn. rewrite Hp. reflexivity.
  - intros isAuthReady s param Hwhy. rewrite nav_run_snoc. cbn [nav_step]. unfold unitsEffect.
    unfold ready in Hwhy. rewrite andb_assoc in Hwhy.
    destruct Hwhy as [-> | [-> | ->]]; [reflexivity| |].
    + destruct (_ && _ && _); reflexivity.
    + destruct (_ && _ && _); reflexivity.
Qed.

Lemma navigation_shows_one_page_witness :
  Forall click_of_card [Click "A-1"; Back; Effect true home (Some "B-2")] ∧
  render (nav_run [Click "A-1"; Back; Effect true home (Some "B-2")]) = [UnitView "B-2"] ∧
  render (nav_run ([Click "A-1"; Back; Effect true home (Some "B-2")] ++ [Click "A-1"])) =
    [UnitView "A-1"].
Proof.
  assert (Hes : Forall click_of_card [Click "A-1"; Back; Effect true home (Some "B-2")]).
  { repeat constructor. discriminate. }
  split; [exact Hes|]. split; [reflexivity|].
  destruct (navigation_shows_one_page _ Hes) as (_ & Hclick & _).
  apply Hclick. discriminate.
Defined.

(** ** Signing in *)

(** X19. Without a user nothing is written; signing in opens the store.
    With the store handle set and no user, [addUnitToFirestore] sends no
    request.  The auth callback without a user makes exactly one sign-in
    call, with the custom token when one is configured and anonymously
    otherwise, returns even when that call fails, reports the failure and
    leaves the application not ready.  The callback with a user sets
    [userId] and [isAuthReady], after which [addUnitToFirestore] stores the
    unit, under the reference [doc] resolves the name to. *)
Theorem sign_in_gates_writes s initialAuthToken unitName unitAddress :
  db s = true → userId s = None →
  (requests (snd (addUnitToFirestore unitName unitAddress s)) = requests s) ∧
  (∀ answer isAuthReady,
     let run := authStateChanged initialAuthToken None answer isAuthReady s in
     fst run = Returned (isAuthReady, Some (sign_in_call initialAuthToken)) ∧
     userId (snd run) = None ∧ ready (snd run) = false ∧
     messages (snd run) =
       messages s ++ match answer with
                     | Some m => [mkMessage ("Authentication failed: " +:+ m) Err]
                     | None => []
                     end) ∧
  (∀ uid answer isAuthReady,
     uid ≠ EmptyString →
     let run := authStateChanged initialAuthToken (Some uid) answer isAuthReady s in
     fst run = Returned (true, None) ∧ userId (snd run) = Some uid ∧
     ready (snd run) = true ∧
     (∀ unitRef, doc unitName = Returned unitRef → next_accepted s = true →
      getUnit (snd (addUnitToFirestore unitName unitAddress (snd run))) unitRef =
        Some (mkUnit unitAddress "Not Started" defaultTrades))).
Proof.
  intros Hd Hu.
  assert (Hr : ready s = false).
  { unfold ready, no_user. rewrite Hd, Hu. reflexivity. }
  split; [|split].
  - rewrite (addUnitToFirestore_not_ready _ _ _ Hr). destruct s; reflexivity.
  - intros answer isAuthReady run. subst run. unfold authStateChanged, lift. unfold_monad.
    destruct answer as [m|]; destruct s; simpl_state; simpl in Hu; subst;
      rewrite ?app_nil_r; auto.
  - intros uid answer isAuthReady Hne run. subst run. unfold authStateChanged. unfold_monad.
    cbn [fst snd].
    assert (Hr' : ready (set_userId (Some uid) s) = true).
    { unfold ready, no_user, set_userId. cbn. rewrite Hd. apply String.eqb_neq in Hne.
      rewrite Hne. reflexivity. }
    split; [reflexivity|]. split; [reflexivity|]. split; [exact Hr'|].
    intros unitRef Hdoc Ha.
    rewrite (addUnitToFirestore_accepted _ _ _ _ Hdoc Hr') by (destruct s; exact Ha).
    unfold getUnit. cbn [snd].
    unfold set_messages, set_docs, set_faults, set_requests, set_userId. cbn [docs].
    apply lookup_insert_eq.
Qed.

Lemma sign_in_gates_writes_witness :
  db signed_out = true ∧ userId signed_out = None ∧
  requests (snd (addUnitToFirestore "A-1" "123 Main" signed_out)) = [] ∧
  sign_in_call (Some "token-1") = signInWithCustomToken "token-1" ∧
  sign_in_call None = signInAnonymously.
Proof.
  split; [reflexivity|]. split; [reflexivity|].
  destruct (sign_in_gates_writes signed_out None "A-1" "123 Main" eq_refl eq_refl) as (Hno & _).
  split; [exact Hno|]. split; reflexivity.
Defined.

(** ** Handlers in succession, with and without a snapshot in between *)

Lemma handleAddTask_accepted s u stored newTaskName :
  db s = true → unitData s = Some u → selectedTrade s ≠ EmptyString →
  newTaskName ≠ EmptyString →
  next_accepted s = true → docs s !! unitId s = Some stored →
  let written := append_in (selectedTrade s) [mkTask (VStr newTaskName) false] (trades u) in
  handleAddTask (Some newTaskName) s =
    (Returned tt,
     set_messages (messages s ++ [mkMessage ("Task " +:+ quoted newTaskName +:+ " added to "
                                             +:+ selectedTrade s +:+ "!") Info])
       (set_docs (<[unitId s := with_trades written stored]> (docs s))
          (set_faults (tail (faults s))
             (set_requests (requests s ++ [UpdateDoc (unitId s) written]) s)))).
Proof.
  intros Hd Hu Hsel Hnew Ha Hs written.
  destruct (handleAddTask_effect s u newTaskName Hd Hu Hsel Hnew)
    as (d' & f' & msg & E & _ & A).
  destruct (A Ha stored Hs) as (-> & -> & ->). exact E.
Qed.

(** X20. [handleAddTask] builds its write from [unitData], which it does not
    update.  Two tasks added in succession before any snapshot arrives
    leave only the second in the store; with the snapshot of the first
    write in between (the callback of the view, whatever the order of the
    trades' keys), both are stored, in order. *)
Theorem second_add_without_snapshot_drops_first Object_keys s u stored first second :
  db s = true → unitData s = Some u → selectedTrade s ≠ EmptyString →
  first ≠ EmptyString → second ≠ EmptyString →
  Forall (λ f, f = None) (take 2 (faults s)) → docs s !! unitId s = Some stored →
  let old := tasks_or_empty (trades u !! selectedTrade s) in
  let after1 := snd (handleAddTask (Some first) s) in
  (getUnit (snd (handleAddTask (Some second) after1)) (unitId s) ≫=
     λ d, trades d !! selectedTrade s) = Some (old ++ [mkTask (VStr second) false]) ∧
  (getUnit (snd (handleAddTask (Some second) (snd (unitSnapshot Object_keys after1))))
           (unitId s) ≫=
     λ d, trades d !! selectedTrade s) =
    Some (old ++ [mkTask (VStr first) false; mkTask (VStr second) false]).
Proof.
  intros Hd Hu Hsel H1 H2 Hf Hs old after1.
  assert (Ha1 : next_accepted s = true).
  { unfold next_accepted. destruct (faults s) as [|[m|] fs]; try reflexivity.
    inversion Hf; discriminate. }
  assert (Ha2 : next_accepted (set_faults (tail (faults s)) s) = true).
  { unfold next_accepted. read_state.
    destruct (faults s) as [|f0 [|[m|] fs]]; try reflexivity.
    cbn in Hf. inversion Hf as [|? ? _ Hf']. inversion Hf'; discriminate. }
  set (w1 := append_in (selectedTrade s) [mkTask (VStr first) false] (trades u)).
  assert (E1 : after1 =
    set_messages (messages s ++ [mkMessage ("Task " +:+ quoted first +:+ " added to "
                                            +:+ selectedTrade s +:+ "!") Info])
      (set_docs (<[unitId s := with_trades w1 stored]> (docs s))
         (set_faults (tail (faults s))
            (set_requests (requests s ++ [UpdateDoc (unitId s) w1]) s)))).
  { subst after1. rewrite (handleAddTask_accepted s u stored first Hd Hu Hsel H1 Ha1 Hs).
    reflexivity. }
  assert (Hw1 : w1 !! selectedTrade s = Some (old ++ [mkTask (VStr first) false])).
  { apply lookup_insert_eq. }
  split.
  - rewrite (handleAddTask_accepted after1 u (with_trades w1 stored) second).
    + rewrite E1. unfold getUnit. read_state. rewrite lookup_insert_eq. cbn.
      apply lookup_insert_eq.
    + rewrite E1. exact Hd.
    + rewrite E1. exact Hu.
    + rewrite E1. exact Hsel.
    + exact H2.
    + rewrite E1. destruct s; exact Ha2.
    + rewrite E1. read_state. apply lookup_insert_eq.
  - assert (Esnap : snd (unitSnapshot Object_keys after1) =
                      set_unitData (Some (with_trades w1 stored)) after1).
    { unfold unitSnapshot, getUnit. unfold_monad.
      replace (docs after1 !! unitId after1) with (Some (with_trades w1 stored))
        by (rewrite E1; read_state; symmetry; apply lookup_insert_eq).
      replace (String.eqb (selectedTrade after1) EmptyString) with false
        by (rewrite E1; read_state; symmetry; apply String.eqb_neq; exact Hsel).
      reflexivity. }
    rewrite Esnap.
    rewrite (handleAddTask_accepted _ (with_trades w1 stored) (with_trades w1 stored) second).
    + rewrite E1. unfold getUnit. read_state. rewrite lookup_insert_eq. cbn.
      unfold append_in. rewrite lookup_insert_eq. rewrite Hw1. cbn [tasks_or_empty].
      rewrite <- app_assoc. reflexivity.
    + rewrite E1. exact Hd.
    + reflexivity.
    + rewrite E1. exact Hsel.
    + exact H2.
    + rewrite E1. destruct s; exact Ha2.
    + rewrite E1. read_state. apply lookup_insert_eq.
Qed.

Lemma second_add_without_snapshot_drops_first_witness :
  db view_A1 = true ∧ docs view_A1 !! unitId view_A1 = Some unit_A1 ∧
  (getUnit (snd (handleAddTask (Some "Pull permit")
                   (snd (handleAddTask (Some "Install panel") view_A1)))) "A-1" ≫=
     λ d, trades d !! "Electrical") =
    Some [mkTask (VStr "Rough-in wiring") false; mkTask (VStr "Fixture installation") false;
          mkTask (VStr "Pull permit") false].
Proof.
  split; [reflexivity|]. split; [reflexivity|].
  assert (Hsel : selectedTrade view_A1 ≠ EmptyString) by discriminate.
  assert (H1 : "Install panel" ≠ EmptyString) by discriminate.
  assert (H2 : "Pull permit" ≠ EmptyString) by discriminate.
  assert (Hf : Forall (λ f : option string, f = None) (take 2 (faults view_A1)))
    by (vm_compute; constructor).
  apply (second_add_without_snapshot_drops_first listed_keys view_A1 unit_A1 unit_A1
           "Install panel" "Pull permit" eq_refl eq_refl Hsel H1 H2 Hf eq_refl).
Defined.

(** X21. A toggle whose write was rejected is not undone in [unitData]: the
    next accepted [handleAddTask] writes the flipped task to the store,
    although the toggle had reported an error and the store was unchanged
    until then. *)
Theorem rejected_toggle_written_by_next_add s u stored tradeName taskIndex tasks t m rest
    newTaskName :
  db s = true → unitData s = Some u →
  trades u !! tradeName = Some tasks → tasks !! taskIndex = Some t →
  selectedTrade s ≠ EmptyString → newTaskName ≠ EmptyString →
  faults s = Some m :: rest → next_accepted (set_faults rest s) = true →
  docs s !! unitId s = Some stored →
  let failed := handleTaskToggle tradeName taskIndex s in
  let run := handleAddTask (Some newTaskName) (snd failed) in
  last (messages (snd failed)) = Some (mkMessage ("Error updating task: " +:+ m) Err) ∧
  getUnit (snd failed) (unitId s) = Some stored ∧
  ∃ stored' tasks' t',
    getUnit (snd run) (unitId s) = Some stored' ∧
    trades stored' !! tradeName = Some tasks' ∧ tasks' !! taskIndex = Some t' ∧
    task t' = task t ∧ completed t' = negb (completed t).
Proof.
  intros Hd Hu Ht Hi Hsel Hnew Hf Ha Hs failed run.
  set (w := toggle_in tradeName taskIndex tasks t (trades u)).
  assert (E : failed =
    (Returned tt,
     set_messages (messages s ++ [mkMessage ("Error updating task: " +:+ m) Err])
       (set_faults rest
          (set_requests (requests s ++ [UpdateDoc (unitId s) w])
             (set_unitData (Some (with_trades w u)) s))))).
  { subst failed.
    rewrite (handleTaskToggle_valid s u tradeName taskIndex tasks t Hd Hu Ht Hi). cbv zeta.
    fold w. rewrite (updateDoc_rejected _ _ _ m rest) by exact Hf. reflexivity. }
  assert (Hlt : taskIndex < length tasks) by (eapply lookup_lt_Some; exact Hi).
  split; [rewrite E; read_state; apply last_snoc|].
  split; [rewrite E; unfold getUnit; read_state; exact Hs|].
  subst run. rewrite E. cbn [snd].
  rewrite (handleAddTask_accepted _ (with_trades w u) stored newTaskName);
    [|exact Hd|reflexivity|exact Hsel|exact Hnew|destruct s; exact Ha|exact Hs].
  unfold getUnit. read_state. rewrite lookup_insert_eq.
  destruct (decide (selectedTrade s = tradeName)) as [<-|Hne].
  - exists (with_trades (append_in (selectedTrade s) [mkTask (VStr newTaskName) false] w) stored),
           (<[taskIndex := toggled t]> tasks ++ [mkTask (VStr newTaskName) false]), (toggled t).
    split; [reflexivity|]. split.
    { cbn. unfold append_in. rewrite lookup_insert_eq. unfold w, toggle_in.
      rewrite lookup_insert_eq. reflexivity. }
    split; [|split; reflexivity].
    rewrite lookup_app_l by (rewrite length_insert; exact Hlt).
    apply list_lookup_insert_eq. exact Hlt.
  - exists (with_trades (append_in (selectedTrade s) [mkTask (VStr newTaskName) false] w) stored),
           (<[taskIndex := toggled t]> tasks), (toggled t).
    split; [reflexivity|]. split.
    { cbn. unfold append_in. rewrite lookup_insert_ne by exact Hne. apply lookup_insert_eq. }
    split; [apply list_lookup_insert_eq; exact Hlt|split; reflexivity].
Qed.

Lemma rejected_toggle_written_by_next_add_witness :
  faults (set_faults [Some "unavailable"] view_A1) = [Some "unavailable"] ∧
  (getUnit (snd (handleAddTask (Some "Install panel")
                   (snd (handleTaskToggle "Electrical" 0
                           (set_faults [Some "unavailable"] view_A1))))) "A-1" ≫=
     λ d, trades d !! "Electrical") =
    Some [mkTask (VStr "Rough-in wiring") true; mkTask (VStr "Fixture installation") false;
          mkTask (VStr "Install panel") false].
Proof.
  split; [reflexivity|].
  assert (Hsel : selectedTrade (set_faults [Some "unavailable"] view_A1) ≠ EmptyString)
    by discriminate.
  assert (Hnew : "Install panel" ≠ EmptyString) by discriminate.
  destruct (rejected_toggle_written_by_next_add (set_faults [Some "unavailable"] view_A1)
              unit_A1 unit_A1 "Electrical" 0
              [mkTask (VStr "Rough-in wiring") false; mkTask (VStr "Fixture installation") false]
              (mkTask (VStr "Rough-in wiring") false) "unavailable" [] "Install panel"
              eq_refl eq_refl eq_refl eq_refl Hsel Hnew eq_refl eq_refl eq_refl)
    as (_ & _ & stored' & tasks' & t' & Hg & _).
  reflexivity.
Defined.

